(** * RiskGuard-AI: the trade-audit client

    A shallow embedding of the two client files of the repository,

    - [src/frontend/src/app/page.tsx]: the [Home] page with [handleAudit], and
      the [TradeEvaluationForm] component with [handleChange];
    - [src/frontend/src/components/DecisionReport.tsx]: the [DecisionReport]
      component,

    followed by the properties of the risk guardrail, of the audit life cycle
    and of the verdict presentation.

    Conventions of the embedding.

    - A JavaScript [number] is an IEEE 754 binary64 value: Rocq's primitive
      [float], with its [nan], its infinities and its comparisons, which are
      [false] as soon as one operand is [nan].
    - A [useState] cell is a record field, and a setter is a function on the
      record.  React applies the updates of one event handler before the next
      event is dispatched, so an event is one step of a transition function.
    - What the program waits for (the [axios.post] promise, the [setTimeout]
      callback) is kept in the state as a list of pending continuations, each
      with the variables its closure captured; the environment chooses which
      one runs next. *)

From Stdlib Require Import String List Bool Arith ZArith Floats Lia.
Import ListNotations.

#[local] Open Scope string_scope.
#[local] Open Scope list_scope.

(* ================================================================== *)
(** * JavaScript values *)
(* ================================================================== *)

(** The type [number]. *)
Definition number : Type := float.

(** [Number(value)] applied to a value that already is a number returns it
    unchanged (ToNumber is the identity on the Number type).  Both call sites
    that edit a numeric field pass [Number(e.target.value)], a number. *)
Definition Number (value : number) : number := value.

(** [x > y] and [x <= y] of JavaScript on numbers. *)
Definition js_gt (x y : number) : bool := (y <? x)%float.
Definition js_le (x y : number) : bool := (x <=? y)%float.

(** Truthiness ([!!e], [e && ...]) of a [string | null]: [null] and the empty
    string are falsy. *)
Definition truthy (e : option string) : bool :=
  match e with
  | None => false
  | Some s => negb (s =? "")
  end.

(* ================================================================== *)
(** * TradeEvaluationForm (page.tsx, lines 75-200) *)
(* ================================================================== *)

(** [interface AuditRequest]. *)
Record AuditRequest : Type := mkAuditRequest {
  symbol : string;
  strategy_type : string;
  account_balance : number;
  risk_percentage : number
}.

(** [keyof AuditRequest]. *)
Inductive field : Type :=
| K_symbol
| K_strategy_type
| K_account_balance
| K_risk_percentage.

(** The type the interface gives to each key: the value an edit carries. *)
Definition value_of (k : field) : Type :=
  match k with
  | K_symbol | K_strategy_type => string
  | K_account_balance | K_risk_percentage => number
  end.

(** The two [useState] cells of the component. *)
Record FormState : Type := mkForm {
  formData : AuditRequest;
  error : option string
}.

(** The initial values given to [useState]. *)
Definition initial_formData : AuditRequest :=
  {| symbol := "BTC/USDT";
     strategy_type := "TREND_FOLLOWING";
     account_balance := 10000%float;
     risk_percentage := 1.0%float |}.

Definition initial_form : FormState :=
  {| formData := initial_formData; error := None |}.

Definition setError (e : option string) (st : FormState) : FormState :=
  {| formData := formData st; error := e |}.

Definition setFormData (f : AuditRequest -> AuditRequest) (st : FormState)
  : FormState :=
  {| formData := f (formData st); error := error st |}.

(** [{ ...prev, [field]: value }]. *)
Definition assign (k : field) : value_of k -> AuditRequest -> AuditRequest :=
  match k as k0 return value_of k0 -> AuditRequest -> AuditRequest with
  | K_symbol => fun value prev =>
      {| symbol := value;
         strategy_type := strategy_type prev;
         account_balance := account_balance prev;
         risk_percentage := risk_percentage prev |}
  | K_strategy_type => fun value prev =>
      {| symbol := symbol prev;
         strategy_type := value;
         account_balance := account_balance prev;
         risk_percentage := risk_percentage prev |}
  | K_account_balance => fun value prev =>
      {| symbol := symbol prev;
         strategy_type := strategy_type prev;
         account_balance := value;
         risk_percentage := risk_percentage prev |}
  | K_risk_percentage => fun value prev =>
      {| symbol := symbol prev;
         strategy_type := strategy_type prev;
         account_balance := account_balance prev;
         risk_percentage := value |}
  end.

(** The message of line 106. *)
Definition high_risk_message : string :=
  "High risk limits (>2%) disabled in MVP for safety.".

(** [handleChange], lines 102-113.  For the key [risk_percentage] the hard cap
    is checked first: above it the error is set and the function returns
    before [setFormData]; otherwise the error is cleared.  Every other key
    goes straight to [setFormData]. *)
Definition handleChange (k : field) (value : value_of k) (st : FormState)
  : FormState :=
  match k as k0 return value_of k0 -> FormState with
  | K_risk_percentage => fun value =>
      if js_gt (Number value) 2.0%float
      then setError (Some high_risk_message) st
      else setFormData (assign K_risk_percentage value) (setError None st)
  | K_symbol => fun value => setFormData (assign K_symbol value) st
  | K_strategy_type => fun value => setFormData (assign K_strategy_type value) st
  | K_account_balance => fun value =>
      setFormData (assign K_account_balance value) st
  end value.

(** ** The rendered controls *)

(** An [<option>] of a [<select>]. *)
Record option_element : Type := mkOption {
  option_value : string;
  option_text : string;
  option_disabled : bool
}.

(** Lines 131-132. *)
Definition symbol_options : list option_element :=
  [ mkOption "BTC/USDT" "BTC/USDT" false;
    mkOption "ETH/USDT" "ETH/USDT" false ].

(** Lines 144-146: [BREAKOUT] carries the [disabled] attribute. *)
Definition strategy_options : list option_element :=
  [ mkOption "TREND_FOLLOWING" "Trend Following" false;
    mkOption "BREAKOUT" "Breakout (Coming Soon)" true;
    mkOption "MEAN_REVERSION" "Mean Reversion" false ].

(** The user picks the [i]-th option of a [<select>].  A disabled option
    cannot be chosen: the selection does not change and no [change] event is
    dispatched.  An enabled one dispatches [onChange] with [e.target.value]
    equal to the option's value. *)
Definition select_onChange (options : list option_element)
    (onChange : string -> FormState -> FormState) (i : nat) (st : FormState)
  : FormState :=
  match nth_error options i with
  | Some o => if option_disabled o then st else onChange (option_value o) st
  | None => st
  end.

(** What the user can do to the form's fields.  For the two
    [<input type="number">] the event carries [Number(e.target.value)].  The
    value of such an input is the empty string or a valid floating-point
    number, so what the control delivers is never [nan]
    ([from_number_input] below); [handleChange] itself takes any number. *)
Inductive form_event : Type :=
| PickSymbol (i : nat)
| PickStrategy (i : nat)
| TypeBalance (x : number)
| TypeRisk (x : number).

(** The four [onChange] attributes (lines 128, 141, 157, 169). *)
Definition form_step (e : form_event) (st : FormState) : FormState :=
  match e with
  | PickSymbol i =>
      select_onChange symbol_options (handleChange K_symbol) i st
  | PickStrategy i =>
      select_onChange strategy_options (handleChange K_strategy_type) i st
  | TypeBalance x => handleChange K_account_balance (Number x) st
  | TypeRisk x => handleChange K_risk_percentage (Number x) st
  end.

Definition form_run (es : list form_event) (st : FormState) : FormState :=
  fold_left (fun s e => form_step e s) es st.

(** [{error && (...)}], lines 175-180: the advisory that is displayed. *)
Definition advisory (st : FormState) : option string :=
  if truthy (error st) then error st else None.

(** [disabled={isLoading || !!error}], line 185. *)
Definition run_audit_disabled (isLoading : bool) (st : FormState) : bool :=
  isLoading || truthy (error st).

(* ================================================================== *)
(** * DecisionReport (DecisionReport.tsx) *)
(* ================================================================== *)

(** [interface ReportProps], one module per nested object. *)
Module traffic_light.
Record t : Type := mk { color : string; label : string }.
End traffic_light.

Module regime_card.
Record t : Type := mk { title : string; value : string; subtext : string }.
End regime_card.

Module risk_card.
Record t : Type := mk { title : string; metric_1 : string; metric_2 : string }.
End risk_card.

(** [blockers] is declared [string[]]; line 91 also guards against its
    absence, so the field is optional here. *)
Module ai_analysis.
Record t : Type := mk { text : string; blockers : option (list string) }.
End ai_analysis.

Record ui_components_t : Type := mk_ui_components {
  ui_traffic_light : traffic_light.t;
  ui_regime_card : regime_card.t;
  ui_risk_card : risk_card.t;
  ui_ai_analysis : ai_analysis.t
}.

Record ReportData : Type := mkReportData {
  asset : string;
  timestamp : string;
  ui_components : ui_components_t
}.

(** The icon components imported from lucide-react. *)
Inductive icon : Type :=
| CheckCircle | AlertTriangle | XCircle | Shield | Activity.

(** ** Property access on an object literal

    [obj[key]] looks for an own property first, then along the prototype
    chain, and is [undefined] when neither has the key.  The prototype of an
    object literal is [Object.prototype], whose properties are listed here. *)
Definition Object_prototype : list string :=
  [ "constructor"; "hasOwnProperty"; "isPrototypeOf"; "propertyIsEnumerable";
    "toLocaleString"; "toString"; "valueOf"; "__proto__";
    "__defineGetter__"; "__defineSetter__";
    "__lookupGetter__"; "__lookupSetter__" ].

Inductive property (A : Type) : Type :=
| own (a : A)
| inherited (name : string)
| undefined.

Arguments own {A} a.
Arguments inherited {A} name.
Arguments undefined {A}.

Fixpoint own_property {A : Type} (obj : list (string * A)) (key : string)
  : option A :=
  match obj with
  | [] => None
  | (k, a) :: rest => if k =? key then Some a else own_property rest key
  end.

Definition mem_string (s : string) (l : list string) : bool :=
  existsb (String.eqb s) l.

Definition get {A : Type} (obj : list (string * A)) (key : string)
  : property A :=
  match own_property obj key with
  | Some a => own a
  | None => if mem_string key Object_prototype then inherited key else undefined
  end.

(** Lines 21-26. *)
Definition statusColors : list (string * string) :=
  [ ("GREEN", "bg-green-500/10 border-green-500 text-green-400");
    ("YELLOW", "bg-yellow-500/10 border-yellow-500 text-yellow-400");
    ("RED", "bg-red-500/10 border-red-500 text-red-400");
    ("GREY", "bg-gray-500/10 border-gray-500 text-gray-400") ].

(** The object literal of lines 28-33. *)
Definition statusIcons : list (string * icon) :=
  [ ("GREEN", CheckCircle);
    ("YELLOW", AlertTriangle);
    ("RED", XCircle);
    ("GREY", Activity) ].

(** What [StatusIcon] is bound to: the looked-up value when it is truthy
    (a component, or a function or object inherited from [Object.prototype]),
    and [Activity] when the lookup is [undefined]. *)
Inductive element_type : Type :=
| Component (c : icon)
| NotAComponent (name : string).

Definition StatusIcon (tl : traffic_light.t) : element_type :=
  match get statusIcons (traffic_light.color tl) with
  | own c => Component c
  | inherited name => NotAComponent name
  | undefined => Component Activity
  end.

(** [statusColors[traffic_light.color]], the second argument of [clsx] on
    line 44: no [||] follows this lookup. *)
Definition status_style (tl : traffic_light.t) : property string :=
  get statusColors (traffic_light.color tl).

(** [clsx(base, x)]: a non-empty string is appended after a space;
    [undefined], functions and objects without enumerable keys add nothing. *)
Definition clsx (base : string) (x : property string) : string :=
  match x with
  | own s => if s =? "" then base else base ++ " " ++ s
  | inherited _ => base
  | undefined => base
  end.

(** ** The rendered tree *)

(** What a JSX expression evaluates to. [nothing] stands for the values React
    renders as nothing: [false], [null] and [undefined]. *)
#[local] Set Warnings "-register-all".

Inductive vnode : Type :=
| vtext (s : string)
| velement (tag : string) (className : string) (key : option nat)
    (children : list vnode)
| vcomponent (type : element_type) (className : string)
| nothing.

(** [xs.map((x, i) => f x i)]. *)
Fixpoint map_from {A B : Type} (f : A -> nat -> B) (i : nat) (xs : list A)
  : list B :=
  match xs with
  | [] => []
  | x :: rest => f x i :: map_from f (S i) rest
  end.

Definition js_map {A B : Type} (f : A -> nat -> B) (xs : list A) : list B :=
  map_from f 0 xs.

(** Lines 44-47: the status pill. *)
Definition status_pill (tl : traffic_light.t) : vnode :=
  velement "div"
    (clsx "px-4 py-2 rounded-full border flex items-center gap-2"
       (status_style tl))
    None
    [ vcomponent (StatusIcon tl) "w-5 h-5";
      velement "span" "font-bold tracking-wider" None
        [ vtext (traffic_light.label tl) ] ].

(** Lines 53-60: zone A. *)
Definition regime_zone (rc : regime_card.t) : vnode :=
  velement "div" "bg-gray-900 border border-gray-800 p-6 rounded-xl" None
    [ velement "div" "flex items-center gap-2 mb-4 text-gray-400" None
        [ vcomponent (Component Activity) "w-4 h-4";
          velement "h3" "text-xs font-bold uppercase tracking-wider" None
            [ vtext (regime_card.title rc) ] ];
      velement "div" "text-xl font-bold text-white mb-2" None
        [ vtext (regime_card.value rc) ];
      velement "p" "text-sm text-gray-400 leading-relaxed" None
        [ vtext (regime_card.subtext rc) ] ].

(** Lines 63-80: zone B. *)
Definition risk_zone (rk : risk_card.t) : vnode :=
  velement "div"
    "bg-gray-900 border border-gray-800 p-6 rounded-xl relative overflow-hidden"
    None
    [ velement "div"
        "absolute top-0 right-0 w-24 h-24 bg-teal-500/5 rounded-bl-full" None [];
      velement "div" "flex items-center gap-2 mb-4 text-teal-400" None
        [ vcomponent (Component Shield) "w-4 h-4";
          velement "h3" "text-xs font-bold uppercase tracking-wider" None
            [ vtext (risk_card.title rk) ] ];
      velement "div" "space-y-4" None
        [ velement "div" "" None
            [ velement "div" "text-xs text-gray-500 uppercase mb-1" None
                [ vtext "Recommended Stop Width" ];
              velement "div" "text-lg font-mono text-white" None
                [ vtext (risk_card.metric_1 rk) ] ];
          velement "div" "" None
            [ velement "div" "text-xs text-gray-500 uppercase mb-1" None
                [ vtext "Max Position Size" ];
              velement "div" "text-lg font-mono text-white" None
                [ vtext (risk_card.metric_2 rk) ] ] ] ].

(** Line 96: one [<li>] per blocker, keyed by its index. *)
Definition blocker_item (blocker : string) (i : nat) : vnode :=
  velement "li" "text-sm text-red-300" (Some i) [ vtext blocker ].

(** Lines 91-100:
    [ai_analysis.blockers && ai_analysis.blockers.length > 0 && (<div>...)].
    An absent list is falsy and is the value of the expression; an array is
    truthy, also when empty, and then the length decides. *)
Definition blockers_section (a : ai_analysis.t) : vnode :=
  match ai_analysis.blockers a with
  | None => nothing
  | Some blockers =>
      if (0 <? List.length blockers)%nat
      then
        velement "div" "mt-4 pt-4 border-t border-gray-700" None
          [ velement "h4" "text-xs text-red-400 font-bold uppercase mb-2" None
              [ vtext "Alignment Blockers" ];
            velement "ul" "list-disc list-inside space-y-1" None
              (js_map blocker_item blockers) ]
      else nothing
  end.

(** Lines 84-101: zone C. *)
Definition summary_zone (a : ai_analysis.t) : vnode :=
  velement "div" "bg-gray-800/50 border border-gray-700 p-6 rounded-xl" None
    [ velement "h3" "text-xs font-bold text-gray-400 uppercase tracking-wider mb-3"
        None [ vtext "Analysis Summary" ];
      velement "p" "text-gray-300 leading-relaxed font-light" None
        [ vtext (ai_analysis.text a) ];
      blockers_section a ].

(** The component.  [toLocaleString] stands for
    [s => new Date(s).toLocaleString()], which depends on the locale and the
    time zone of the browser. *)
Definition DecisionReport (toLocaleString : string -> string)
    (data : ReportData) : vnode :=
  let ui := ui_components data in
  velement "div"
    "max-w-4xl mx-auto space-y-6 animate-in fade-in slide-in-from-bottom-4 duration-700"
    None
    [ velement "div"
        "flex items-center justify-between border-b border-gray-800 pb-4" None
        [ velement "div" "" None
            [ velement "h1" "text-2xl font-mono text-white tracking-tight" None
                [ vtext (asset data); vtext " AUDIT" ];
              velement "p" "text-gray-500 text-sm font-mono" None
                [ vtext (toLocaleString (timestamp data)) ] ];
          status_pill (ui_traffic_light ui) ];
      velement "div" "grid grid-cols-1 md:grid-cols-2 gap-6" None
        [ regime_zone (ui_regime_card ui);
          risk_zone (ui_risk_card ui) ];
      summary_zone (ui_ai_analysis ui) ].

(** The texts of the [<li>] elements of a rendered blockers section, in
    document order, and whether the section's heading is present. *)
Definition item_text (n : vnode) : option string :=
  match n with
  | velement "li" _ _ [ vtext s ] => Some s
  | _ => None
  end.

Definition section_items (n : vnode) : option (list (option string)) :=
  match n with
  | velement "div" _ _ [ velement "h4" _ _ _; velement "ul" _ _ items ] =>
      Some (map item_text items)
  | _ => None
  end.


(* ================================================================== *)
(** * Home (page.tsx, lines 1-74) *)
(* ================================================================== *)

(** [response.data], of type [any].  The page only tests it for truthiness
    (lines 41 and 52): [None] stands for a falsy body ([null], [undefined],
    the empty string, [0], [false]), [Some r] for a truthy one, taken to have
    the shape [DecisionReport] declares for its [data]. *)
Definition response_data : Type := option ReportData.

(** The two [useState] cells of [Home].  [report] is [null] at first and
    then holds the last [response.data]; [None] is [null] or a falsy body,
    which [{report && ...}] and [{!report ? ... : ...}] treat alike. *)
Record HomeState : Type := mkHome {
  report : option ReportData;
  loading : bool
}.

(** A [setTimeout] callback that has not run yet, with the [data] and the
    [response.data] in the scope of its closure. *)
Record timeout : Type := mkTimeout {
  timeout_data : AuditRequest;
  timeout_response : response_data
}.

(** The page and what it is waiting for.
    - [form]: the state of the mounted [TradeEvaluationForm], [None] while
      [DecisionReport] is rendered in its place (line 52);
    - [posts]: the [axios.post] calls awaiting their response, each with the
      [data] it was given;
    - [timeouts]: the scheduled callbacks of line 20;
    - [alerts], [console]: what [alert] and [console.error] were given. *)
Record World : Type := mkWorld {
  home : HomeState;
  form : option FormState;
  posts : list AuditRequest;
  timeouts : list timeout;
  alerts : list string;
  console : list string
}.

Definition unreachable_message : string :=
  "Failed to connect to the Risk Engine. Is the backend running?".

(** Lines 52-70: the form is rendered while [report] is falsy.  A form that
    stays rendered keeps its state, one that appears is created with the
    initial values of its [useState] calls, and one that disappears loses its
    state. *)
Definition render_form (h : HomeState) (mounted : option FormState)
  : option FormState :=
  match report h with
  | None =>
      Some (match mounted with Some st => st | None => initial_form end)
  | Some _ => None
  end.

Definition setHome (h : HomeState) (w : World) : World :=
  {| home := h;
     form := render_form h (form w);
     posts := posts w;
     timeouts := timeouts w;
     alerts := alerts w;
     console := console w |}.

Definition setReport (r : option ReportData) (w : World) : World :=
  setHome {| report := r; loading := loading (home w) |} w.

Definition setLoading (b : bool) (w : World) : World :=
  setHome {| report := report (home w); loading := b |} w.

Definition initial_world : World :=
  {| home := {| report := None; loading := false |};
     form := Some initial_form;
     posts := [];
     timeouts := [];
     alerts := [];
     console := [] |}.

(** [l] without its [k]-th element. *)
Fixpoint remove_nth {A : Type} (k : nat) (l : list A) : list A :=
  match l, k with
  | [], _ => []
  | _ :: rest, O => rest
  | x :: rest, S k' => x :: remove_nth k' rest
  end.

(** [handleAudit] up to its [await] (lines 14-17): [setLoading(true)] and the
    request is sent. *)
Definition handleAudit (data : AuditRequest) (w : World) : World :=
  let w1 := setLoading true w in
  {| home := home w1;
     form := form w1;
     posts := posts w1 ++ [data];
     timeouts := timeouts w1;
     alerts := alerts w1;
     console := console w1 |}.

(** The [k]-th pending call resolves with [response.data = r] (lines 20-23):
    the callback is scheduled, nothing else changes yet. *)
Definition handleAudit_resolved (k : nat) (r : response_data) (w : World)
  : World :=
  match nth_error (posts w) k with
  | Some data =>
      {| home := home w;
         form := form w;
         posts := remove_nth k (posts w);
         timeouts := timeouts w ++ [mkTimeout data r];
         alerts := alerts w;
         console := console w |}
  | None => w
  end.

(** The [k]-th pending call is rejected, by a network error or by a response
    whose status is not a success (lines 25-29). *)
Definition handleAudit_rejected (k : nat) (w : World) : World :=
  match nth_error (posts w) k with
  | Some _ =>
      setLoading false
        {| home := home w;
           form := form w;
           posts := remove_nth k (posts w);
           timeouts := timeouts w;
           alerts := alerts w ++ [unreachable_message];
           console := console w ++ ["Audit failed"] |}
  | None => w
  end.

(** The [k]-th scheduled callback runs (lines 21-22):
    [setReport(response.data); setLoading(false)].  With a falsy body the
    report stays falsy and the form stays rendered. *)
Definition timeout_callback (k : nat) (w : World) : World :=
  match nth_error (timeouts w) k with
  | Some t =>
      setLoading false
        (setReport (timeout_response t)
           {| home := home w;
              form := form w;
              posts := posts w;
              timeouts := remove_nth k (timeouts w);
              alerts := alerts w;
              console := console w |})
  | None => w
  end.

(** Everything that can happen to the page. *)
Inductive event : Type :=
| Edit (e : form_event)
| ClickRunAudit
| ClickBack
| PostResolved (k : nat) (r : response_data)
| PostRejected (k : nat)
| TimeoutFired (k : nat).

(** One event.  An event whose control is not rendered or is disabled, or
    whose continuation does not exist, leaves the page as it is.
    - [Edit]: the form must be rendered;
    - [ClickRunAudit]: the button of lines 183-186, [onSubmit(formData)] unless
      it is disabled;
    - [ClickBack]: the button of lines 41-48, rendered when [report] is
      truthy. *)
Definition step (e : event) (w : World) : World :=
  match e with
  | Edit fe =>
      match form w with
      | Some st =>
          {| home := home w;
             form := Some (form_step fe st);
             posts := posts w;
             timeouts := timeouts w;
             alerts := alerts w;
             console := console w |}
      | None => w
      end
  | ClickRunAudit =>
      match form w with
      | Some st =>
          if run_audit_disabled (loading (home w)) st then w
          else handleAudit (formData st) w
      | None => w
      end
  | ClickBack =>
      match report (home w) with
      | Some _ => setReport None w
      | None => w
      end
  | PostResolved k r => handleAudit_resolved k r w
  | PostRejected k => handleAudit_rejected k w
  | TimeoutFired k => timeout_callback k w
  end.

Definition run (es : list event) (w : World) : World :=
  fold_left (fun s e => step e s) es w.

Inductive reachable : World -> Prop :=
| reachable_initial : reachable initial_world
| reachable_step : forall (w : World) (e : event),
    reachable w -> reachable (step e w).

(** The requests whose result the page is still waiting for: sent and not
    answered, or answered and not yet shown. *)
Definition outstanding (w : World) : list AuditRequest :=
  posts w ++ map timeout_data (timeouts w).

(** Whether the RUN AUDIT button can be pressed. *)
Definition can_submit (w : World) : bool :=
  match form w with
  | Some st => negb (run_audit_disabled (loading (home w)) st)
  | None => false
  end.

(* ================================================================== *)
(** * Vocabulary of the properties *)
(* ================================================================== *)

(** An edit of the risk field that the guardrail lets through. *)
Definition accepted_risk_edit (e : form_event) : bool :=
  match e with
  | TypeRisk x => negb (js_gt x 2.0%float)
  | _ => false
  end.

Definition no_accepted_risk_edit (es : list form_event) : bool :=
  forallb (fun e => negb (accepted_risk_edit e)) es.

(** An edit of another field than the risk. *)
Definition edits_other_field (e : form_event) : bool :=
  match e with
  | TypeRisk _ => false
  | _ => true
  end.

(** The last value the guardrail accepted among the edits [es], and
    [current] when it accepted none: what the draft is expected to hold. *)
Fixpoint last_accepted_risk (current : number) (es : list form_event)
  : number :=
  match es with
  | [] => current
  | TypeRisk x :: rest =>
      last_accepted_risk (if js_gt x 2.0%float then current else x) rest
  | _ :: rest => last_accepted_risk current rest
  end.

(** The draft with its risk replaced. *)
Definition with_risk (v : number) (d : AuditRequest) : AuditRequest :=
  {| symbol := symbol d;
     strategy_type := strategy_type d;
     account_balance := account_balance d;
     risk_percentage := v |}.

(** What every reachable form satisfies: the risk is not above the cap, the
    two selections are values of enabled options, and the error is absent or
    is the message of the guardrail. *)
Record form_invariant (st : FormState) : Prop := mk_form_invariant {
  inv_risk : js_gt (risk_percentage (formData st)) 2.0%float = false;
  inv_strategy :
    strategy_type (formData st) = "TREND_FOLLOWING"
    \/ strategy_type (formData st) = "MEAN_REVERSION";
  inv_symbol :
    symbol (formData st) = "BTC/USDT" \/ symbol (formData st) = "ETH/USDT";
  inv_error : error st = None \/ error st = Some high_risk_message
}.

(** What every reachable page satisfies.
    - The form is rendered exactly when there is no report.
    - One request is outstanding while [loading] is set, none otherwise.
    - No report is held while [loading] is set. *)
Record page_invariant (w : World) : Prop := mk_page_invariant {
  inv_rendered :
    match report (home w) with
    | None => exists st, form w = Some st
    | Some _ => form w = None
    end;
  inv_outstanding :
    List.length (outstanding w) = if loading (home w) then 1 else 0;
  inv_loading : loading (home w) = true -> report (home w) = None;
  inv_form : forall st, form w = Some st -> form_invariant st
}.

(** The verdicts of scenarios C and D of the specification. *)
Definition scenario_report (color : string) (blockers : list string)
  : ReportData :=
  {| asset := "BTC/USDT";
     timestamp := "2025-01-01T00:00:00Z";
     ui_components :=
       {| ui_traffic_light := traffic_light.mk color "STATUS";
          ui_regime_card := regime_card.mk "Regime" "Trending" "Context";
          ui_risk_card := risk_card.mk "Risk" "2.1%" "0.05 BTC";
          ui_ai_analysis := ai_analysis.mk "Summary" (Some blockers) |} |}.

(** The field an event of the form edits. *)
Definition field_of (e : form_event) : field :=
  match e with
  | PickSymbol _ => K_symbol
  | PickStrategy _ => K_strategy_type
  | TypeBalance _ => K_account_balance
  | TypeRisk _ => K_risk_percentage
  end.

(** The most recent edit of the risk among [es], if there is one. *)
Fixpoint last_risk_edit (es : list form_event) : option number :=
  match es with
  | [] => None
  | e :: rest =>
      match last_risk_edit rest with
      | Some x => Some x
      | None =>
          match e with
          | TypeRisk x => Some x
          | _ => None
          end
      end
  end.

(** The keys of [statusColors] and of the object literal of the icons. *)
Definition status_keys : list string := [ "GREEN"; "YELLOW"; "RED"; "GREY" ].

(** The text leaves of a rendered tree, in document order. *)
Fixpoint texts (n : vnode) : list string :=
  match n with
  | vtext s => [s]
  | velement _ _ _ children =>
      (fix texts_of (l : list vnode) : list string :=
         match l with
         | [] => []
         | child :: rest => texts child ++ texts_of rest
         end) children
  | vcomponent _ _ => []
  | nothing => []
  end.

(** The [key] of an element. *)
Definition node_key (n : vnode) : option nat :=
  match n with
  | velement _ _ key _ => key
  | _ => None
  end.

(** The page with its form replaced. *)
Definition with_form (f : option FormState) (w : World) : World :=
  {| home := home w;
     form := f;
     posts := posts w;
     timeouts := timeouts w;
     alerts := alerts w;
     console := console w |}.

(** What every request that is sent satisfies. *)
Record request_invariant (d : AuditRequest) : Prop := mk_request_invariant {
  req_symbol : symbol d = "BTC/USDT" \/ symbol d = "ETH/USDT";
  req_strategy :
    strategy_type d = "TREND_FOLLOWING" \/ strategy_type d = "MEAN_REVERSION";
  req_risk : js_gt (risk_percentage d) 2.0%float = false
}.

(** What an [<input type="number">] can deliver.  Its value is the empty
    string, which [Number] turns into 0, or a valid floating-point number,
    which [Number] turns into that number: never [nan]. *)
Definition from_number_input (x : number) : bool := negb (is_nan x).

(** The events the rendered controls and the network can produce. *)
Definition from_controls (e : event) : bool :=
  match e with
  | Edit (TypeBalance x) => from_number_input x
  | Edit (TypeRisk x) => from_number_input x
  | _ => true
  end.

(** The states the page reaches when its inputs behave as number inputs. *)
Inductive reachable_from_controls : World -> Prop :=
| controls_initial : reachable_from_controls initial_world
| controls_step : forall (w : World) (e : event),
    reachable_from_controls w ->
    from_controls e = true ->
    reachable_from_controls (step e w).

(** An accepted edit of the risk, as an event of the page. *)
Definition page_accepted_risk_edit (e : event) : bool :=
  match e with
  | Edit fe => accepted_risk_edit fe
  | _ => false
  end.

(** Whether a report is held after one of the events [es], run from [w]. *)
Fixpoint report_shown (es : list event) (w : World) : bool :=
  match es with
  | [] => false
  | e :: rest =>
      match report (home (step e w)) with
      | Some _ => true
      | None => report_shown rest (step e w)
      end
  end.

(* ================================================================== *)
(** * Comparisons of numbers *)
(* ================================================================== *)

Module NumberFacts.

Lemma SFcompare_swap (x y : spec_float) :
  SFcompare y x = option_map CompOpp (SFcompare x y).
Proof.
  destruct x as [sx | sx | | sx mx ex], y as [sy | sy | | sy my ey];
    simpl; try reflexivity;
    try (destruct sx; reflexivity); try (destruct sy; reflexivity);
    try (destruct sx, sy; reflexivity).
  rewrite (Z.compare_antisym ex ey).
  change (PosDef.Pos.compare_cont Eq my mx) with (Pos.compare my mx).
  change (PosDef.Pos.compare_cont Eq mx my) with (Pos.compare mx my).
  rewrite (Pos.compare_antisym mx my).
  destruct sx, sy; simpl; try reflexivity;
    destruct (ex ?= ey)%Z; simpl; try reflexivity;
    destruct (mx ?= my)%positive; reflexivity.
Qed.

Lemma SFcompare_refl (x : spec_float) :
  x <> S754_nan -> SFcompare x x = Some Eq.
Proof.
  destruct x as [s | s | | s m e]; simpl; intros Hx.
  - reflexivity.
  - destruct s; reflexivity.
  - contradiction Hx; reflexivity.
  - rewrite Z.compare_refl.
    change (PosDef.Pos.compare_cont Eq m m) with (Pos.compare m m).
    rewrite Pos.compare_refl. destruct s; reflexivity.
Qed.

Lemma SFcompare_None (x y : spec_float) :
  SFcompare x y = None -> x = S754_nan \/ y = S754_nan.
Proof.
  destruct x, y; simpl; intros H; try discriminate H; auto.
Qed.

Lemma is_nan_Prim2SF (v : number) :
  is_nan v = true <-> Prim2SF v = S754_nan.
Proof.
  unfold is_nan. rewrite eqb_spec. unfold SFeqb. split.
  - intros H. destruct (Prim2SF v) as [s | s | | s m e] eqn:E; try reflexivity;
      rewrite SFcompare_refl in H by discriminate; discriminate H.
  - intros ->. reflexivity.
Qed.

Lemma is_nan_false_Prim2SF (v : number) :
  is_nan v = false <-> Prim2SF v <> S754_nan.
Proof.
  rewrite <- is_nan_Prim2SF. destruct (is_nan v); split; intros H;
    try reflexivity; try discriminate; congruence.
Qed.

(** [x <= y] excludes [x > y]. *)
Lemma le_not_gt (x y : number) : js_le x y = true -> js_gt x y = false.
Proof.
  unfold js_le, js_gt. rewrite leb_spec, ltb_spec. unfold SFleb, SFltb.
  rewrite (SFcompare_swap (Prim2SF x) (Prim2SF y)).
  destruct (SFcompare (Prim2SF x) (Prim2SF y)) as [[ | | ] | ]; simpl;
    intros H; try reflexivity; discriminate H.
Qed.

Lemma gt_not_le (x y : number) : js_gt x y = true -> js_le x y = false.
Proof.
  intros H. destruct (js_le x y) eqn:E; [ | reflexivity ].
  rewrite (le_not_gt x y E) in H. discriminate H.
Qed.


Lemma nan_not_le (x y : number) : is_nan x = true -> js_le x y = false.
Proof.
  intros H. apply is_nan_Prim2SF in H. unfold js_le.
  rewrite leb_spec, H. reflexivity.
Qed.

(** Two numbers that are not [nan] are comparable. *)
Lemma not_gt_le (x y : number) :
  is_nan x = false -> is_nan y = false -> js_gt x y = false -> js_le x y = true.
Proof.
  rewrite !is_nan_false_Prim2SF. unfold js_le, js_gt.
  rewrite leb_spec, ltb_spec. unfold SFleb, SFltb. intros Hx Hy.
  rewrite (SFcompare_swap (Prim2SF x) (Prim2SF y)).
  destruct (SFcompare (Prim2SF x) (Prim2SF y)) as [[ | | ] | ] eqn:E; simpl;
    intros H; try reflexivity; try discriminate H.
  destruct (SFcompare_None _ _ E); contradiction.
Qed.

Lemma two_not_nan : is_nan 2.0%float = false.
Proof. reflexivity. Qed.

(** Against the cap, a number is at most 2, above 2, or [nan]. *)
Lemma cap_cases (v : number) :
  js_le v 2.0%float = true \/ js_gt v 2.0%float = true \/ is_nan v = true.
Proof.
  destruct (is_nan v) eqn:Hn; [ right; right; reflexivity | ].
  destruct (js_gt v 2.0%float) eqn:Hg; [ right; left; reflexivity | ].
  left. apply not_gt_le; auto using two_not_nan.
Qed.

(** What is not above zero is not above the cap. *)
Lemma le_zero_le_cap (v : number) :
  js_le v 0%float = true -> js_le v 2.0%float = true.
Proof.
  unfold js_le. rewrite (leb_spec v 0), (leb_spec v 2).
  assert (E0 : Prim2SF 0%float = S754_zero false)
    by (vm_compute; reflexivity).
  assert (E2 : Prim2SF 2%float = S754_finite false 4503599627370496 (-51))
    by (vm_compute; reflexivity).
  rewrite E0, E2. clear E0 E2. unfold SFleb.
  destruct (Prim2SF v) as [s | s | | s m e]; cbn [SFcompare];
    try (intros H; exact H);
    destruct s; intros H; try reflexivity; discriminate H.
Qed.

End NumberFacts.

(* ================================================================== *)
(** * The risk guardrail *)
(* ================================================================== *)

Section Guardrail.

Variable st : FormState.

(** The two outcomes of [handleChange] on the risk field, by the test of
    line 105. *)
Lemma handleChange_risk_rejected (v : number) :
  js_gt v 2.0%float = true ->
  handleChange K_risk_percentage v st
  = {| formData := formData st; error := Some high_risk_message |}.
Proof.
  intros H. unfold handleChange, Number. rewrite H. reflexivity.
Qed.

Lemma handleChange_risk_accepted (v : number) :
  js_gt v 2.0%float = false ->
  handleChange K_risk_percentage v st
  = {| formData := with_risk v (formData st); error := None |}.
Proof.
  intros H. unfold handleChange, Number. rewrite H. reflexivity.
Qed.

(** The other fields never touch the error. *)
Lemma form_step_other_field (e : form_event) :
  edits_other_field e = true ->
  error (form_step e st) = error st
  /\ risk_percentage (formData (form_step e st)) = risk_percentage (formData st).
Proof.
  destruct e as [i | i | x | x]; simpl; intros H; try discriminate H.
  - unfold select_onChange.
    destruct (nth_error symbol_options i) as [o | ]; [ | auto ].
    destruct (option_disabled o); auto.
  - unfold select_onChange.
    destruct (nth_error strategy_options i) as [o | ]; [ | auto ].
    destruct (option_disabled o); auto.
  - auto.
Qed.

End Guardrail.

(** Over any sequence of edits, the draft's risk is the last value that was
    accepted. *)
Lemma risk_is_last_accepted (es : list form_event) (st : FormState) :
  risk_percentage (formData (form_run es st))
  = last_accepted_risk (risk_percentage (formData st)) es.
Proof.
  revert st. induction es as [ | e es IH]; intros st; [ reflexivity | ].
  unfold form_run in *. simpl fold_left. rewrite IH.
  destruct (edits_other_field e) eqn:He.
  - destruct (form_step_other_field st e He) as [_ Hr]. rewrite Hr.
    destruct e; try discriminate He; reflexivity.
  - destruct e as [i | i | x | x]; try discriminate He.
    simpl. unfold Number. destruct (js_gt x 2.0%float); reflexivity.
Qed.

(** C1.  For every number [v] and every state of the form, the guardrail that
    [handleChange] applies to an edit of [risk_percentage] accepts [v] when
    [v <= 2.0], in particular when [v <= 0], and rejects it when [v > 2.0].
    An accepted edit makes [v] the draft's risk, leaves the other fields as
    they were and clears the error; a rejected one leaves the whole draft,
    hence its risk, as it was and sets the error.  So after any sequence of
    edits the draft's risk is the last value that was accepted. *)
Theorem risk_guardrail_on_edit (st : FormState) (v : number) :
  (js_le v 2.0%float = true ->
   handleChange K_risk_percentage v st
   = {| formData := with_risk v (formData st); error := None |})
  /\ (js_le v 0%float = true ->
      handleChange K_risk_percentage v st
      = {| formData := with_risk v (formData st); error := None |})
  /\ (js_gt v 2.0%float = true ->
      handleChange K_risk_percentage v st
      = {| formData := formData st; error := Some high_risk_message |})
  /\ (forall es : list form_event,
        risk_percentage (formData (form_run es st))
        = last_accepted_risk (risk_percentage (formData st)) es).
Proof.
  split; [ | split; [ | split ] ].
  - intros H. apply handleChange_risk_accepted.
    now apply NumberFacts.le_not_gt.
  - intros H. apply handleChange_risk_accepted.
    apply NumberFacts.le_not_gt. now apply NumberFacts.le_zero_le_cap.
  - apply handleChange_risk_rejected.
  - intros es. apply risk_is_last_accepted.
Qed.

Lemma risk_guardrail_on_edit_witness :
  handleChange K_risk_percentage 2.0%float initial_form
  = {| formData := with_risk 2.0%float initial_formData; error := None |}
  /\ handleChange K_risk_percentage (-3.5)%float initial_form
     = {| formData := with_risk (-3.5)%float initial_formData; error := None |}
  /\ handleChange K_risk_percentage 2.5%float initial_form
     = {| formData := initial_formData; error := Some high_risk_message |}.
Proof.
  split; [ | split ].
  - apply (proj1 (risk_guardrail_on_edit initial_form 2.0%float)).
    reflexivity.
  - apply (proj1 (proj2 (risk_guardrail_on_edit initial_form (-3.5)%float))).
    reflexivity.
  - apply (proj1 (proj2 (proj2
             (risk_guardrail_on_edit initial_form 2.5%float)))).
    reflexivity.
Defined.

(** Scenarios A and B of the specification. *)
Example scenario_A :
  form_step (TypeRisk 2.5%float) initial_form
  = {| formData := initial_formData; error := Some high_risk_message |}.
Proof. reflexivity. Qed.

Example scenario_B :
  form_step (TypeRisk 2.0%float) (form_step (TypeRisk 2.5%float) initial_form)
  = {| formData := with_risk 2.0%float initial_formData; error := None |}
  /\ run_audit_disabled false
       (form_step (TypeRisk 2.0%float)
          (form_step (TypeRisk 2.5%float) initial_form)) = false.
Proof. split; reflexivity. Qed.

(* ================================================================== *)
(** * The advisory *)
(* ================================================================== *)

Lemma form_step_TypeRisk (x : number) (st : FormState) :
  form_step (TypeRisk x) st = handleChange K_risk_percentage x st.
Proof. reflexivity. Qed.

Lemma advisory_of_error (st : FormState) :
  error st = Some high_risk_message -> advisory st = Some high_risk_message.
Proof. unfold advisory. intros ->. reflexivity. Qed.

Lemma advisory_of_no_error (st : FormState) :
  error st = None -> advisory st = None.
Proof. unfold advisory. intros ->. reflexivity. Qed.

(** A step that is not an accepted edit of the risk keeps the error that a
    rejection has set. *)
Lemma error_kept_by_step (e : form_event) (st : FormState) :
  accepted_risk_edit e = false ->
  error st = Some high_risk_message ->
  error (form_step e st) = Some high_risk_message.
Proof.
  intros Ha He. destruct (edits_other_field e) eqn:Ho.
  - destruct (form_step_other_field st e Ho) as [H _]. now rewrite H.
  - destruct e as [i | i | x | x]; try discriminate Ho.
    simpl in Ha. apply negb_false_iff in Ha.
    rewrite form_step_TypeRisk. now rewrite handleChange_risk_rejected.
Qed.

Lemma error_kept_by_run (es : list form_event) (st : FormState) :
  no_accepted_risk_edit es = true ->
  error st = Some high_risk_message ->
  error (form_run es st) = Some high_risk_message.
Proof.
  revert st. induction es as [ | e es IH]; intros st Hes He; [ exact He | ].
  simpl in Hes. apply andb_true_iff in Hes. destruct Hes as [Ha Hes].
  apply negb_true_iff in Ha.
  unfold form_run in *. simpl. apply IH; [ exact Hes | ].
  now apply error_kept_by_step.
Qed.

Lemma form_run_app (es1 es2 : list form_event) (st : FormState) :
  form_run (es1 ++ es2) st = form_run es2 (form_run es1 st).
Proof. unfold form_run. apply fold_left_app. Qed.

(** On the form alone.  A rejected edit of the risk makes the advisory "High
    risk limits (>2%) disabled in MVP for safety." active.  It stays active,
    with the same text, over every sequence of edits of the form that
    contains no accepted edit of the risk, and the next accepted edit of the
    risk clears it.  An edit of another field leaves the advisory, and the
    error behind it, exactly as they were. *)
Theorem advisory_persists_until_accepted_risk_edit
    (st : FormState) (v : number) :
  js_gt v 2.0%float = true ->
  advisory (form_step (TypeRisk v) st) = Some high_risk_message
  /\ (forall es : list form_event,
        no_accepted_risk_edit es = true ->
        advisory (form_run es (form_step (TypeRisk v) st))
        = Some high_risk_message)
  /\ (forall (es : list form_event) (x : number),
        no_accepted_risk_edit es = true ->
        js_gt x 2.0%float = false ->
        advisory (form_run (es ++ [TypeRisk x]) (form_step (TypeRisk v) st))
        = None)
  /\ (forall (st' : FormState) (e : form_event),
        edits_other_field e = true ->
        error (form_step e st') = error st'
        /\ advisory (form_step e st') = advisory st').
Proof.
  intros Hv.
  assert (H0 : error (form_step (TypeRisk v) st) = Some high_risk_message).
  { rewrite form_step_TypeRisk. now rewrite handleChange_risk_rejected. }
  split; [ | split; [ | split ] ].
  - now apply advisory_of_error.
  - intros es Hes. apply advisory_of_error. now apply error_kept_by_run.
  - intros es x Hes Hx. rewrite form_run_app. apply advisory_of_no_error.
    unfold form_run at 1. cbn [fold_left]. rewrite form_step_TypeRisk.
    now rewrite handleChange_risk_accepted.
  - intros st' e He. destruct (form_step_other_field st' e He) as [H _].
    split; [ exact H | ]. unfold advisory. now rewrite H.
Qed.

Lemma advisory_persists_until_accepted_risk_edit_witness :
  advisory (form_step (TypeRisk 2.5%float) initial_form)
  = Some high_risk_message
  /\ advisory
       (form_run [PickSymbol 1; TypeBalance 500%float; TypeRisk 3%float;
                  PickStrategy 2]
          (form_step (TypeRisk 2.5%float) initial_form))
     = Some high_risk_message
  /\ advisory
       (form_run ([PickSymbol 1; TypeRisk 3%float] ++ [TypeRisk 1.5%float])
          (form_step (TypeRisk 2.5%float) initial_form))
     = None.
Proof.
  assert (H : js_gt 2.5%float 2.0%float = true) by reflexivity.
  destruct (advisory_persists_until_accepted_risk_edit initial_form 2.5%float H)
    as [H1 [H2 [H3 _]]].
  split; [ exact H1 | split ].
  - apply H2. reflexivity.
  - apply H3; reflexivity.
Defined.

(* ================================================================== *)
(** * The reserved strategy *)
(* ================================================================== *)

(** The only disabled option is [BREAKOUT], and picking it changes nothing. *)
Lemma pick_reserved_strategy (st : FormState) (i : nat) (o : option_element) :
  nth_error strategy_options i = Some o ->
  option_value o = "BREAKOUT" ->
  form_step (PickStrategy i) st = st.
Proof.
  intros Hi Ho. simpl. unfold select_onChange. rewrite Hi.
  destruct i as [ | [ | [ | i ] ] ]; simpl in Hi.
  - injection Hi as <-. discriminate Ho.
  - injection Hi as <-. reflexivity.
  - injection Hi as <-. discriminate Ho.
  - destruct i; discriminate Hi.
Qed.

(** [handleChange] itself has no test on the strategy: what keeps [BREAKOUT]
    out of the draft is the [disabled] attribute of its option. *)
Remark handleChange_accepts_any_strategy (st : FormState) (s : string) :
  strategy_type (formData (handleChange K_strategy_type s st)) = s.
Proof. reflexivity. Qed.

Lemma world_eta (w : World) :
  {| home := home w; form := form w; posts := posts w;
     timeouts := timeouts w; alerts := alerts w; console := console w |} = w.
Proof. destruct w; reflexivity. Qed.

(** C7.  Picking the reserved member [BREAKOUT] of the strategy list is a
    no-op on the whole page: the draft keeps the strategy it had, the error
    is not touched and nothing is reported to the user. *)
Theorem reserved_strategy_is_noop (w : World) (i : nat) (o : option_element) :
  nth_error strategy_options i = Some o ->
  option_value o = "BREAKOUT" ->
  step (Edit (PickStrategy i)) w = w.
Proof.
  intros Hi Ho. unfold step. destruct (form w) as [st | ] eqn:Hf;
    [ | reflexivity ].
  rewrite (pick_reserved_strategy st i o Hi Ho), <- Hf. apply world_eta.
Qed.

Lemma reserved_strategy_is_noop_witness :
  step (Edit (PickStrategy 1)) initial_world = initial_world.
Proof.
  apply (reserved_strategy_is_noop initial_world 1
           (mkOption "BREAKOUT" "Breakout (Coming Soon)" true));
    reflexivity.
Defined.

(* ================================================================== *)
(** * Invariants of the page *)
(* ================================================================== *)

Lemma remove_nth_length {A : Type} (k : nat) (l : list A) (x : A) :
  nth_error l k = Some x -> S (List.length (remove_nth k l)) = List.length l.
Proof.
  revert k. induction l as [ | y l IH]; intros k H.
  - destruct k; discriminate H.
  - destruct k as [ | k]; simpl in *; [ reflexivity | ].
    f_equal. now apply IH.
Qed.

Lemma outstanding_length (w : World) :
  List.length (outstanding w)
  = List.length (posts w) + List.length (timeouts w).
Proof. unfold outstanding. now rewrite length_app, length_map. Qed.

Lemma form_invariant_initial : form_invariant initial_form.
Proof. split; simpl; auto. Qed.

Lemma form_invariant_step (e : form_event) (st : FormState) :
  form_invariant st -> form_invariant (form_step e st).
Proof.
  intros [Hr Hs Hy He]. destruct e as [i | i | x | x]; simpl.
  - unfold select_onChange.
    destruct i as [ | [ | [ | i ] ] ]; simpl; split; simpl; auto.
  - unfold select_onChange.
    destruct i as [ | [ | [ | [ | i ] ] ] ]; simpl; split; simpl; auto.
  - split; simpl; auto.
  - unfold Number. destruct (js_gt x 2.0%float) eqn:Hx; split; simpl; auto.
Qed.

Lemma page_invariant_initial : page_invariant initial_world.
Proof.
  split; simpl.
  - now exists initial_form.
  - reflexivity.
  - discriminate.
  - intros st H. injection H as <-. apply form_invariant_initial.
Qed.

(** While a form is rendered there is no report. *)
Lemma rendered_no_report (w : World) (st : FormState) :
  page_invariant w -> form w = Some st -> report (home w) = None.
Proof.
  intros [Hr _ _ _] Hf. destruct (report (home w)); [ | reflexivity ].
  rewrite Hr in Hf. discriminate Hf.
Qed.

(** A pending call or callback implies [loading]. *)
Lemma pending_loading (w : World) :
  page_invariant w ->
  posts w <> [] \/ timeouts w <> [] -> loading (home w) = true.
Proof.
  intros [_ Ho _ _] H. rewrite outstanding_length in Ho.
  destruct (loading (home w)); [ reflexivity | ].
  destruct (posts w), (timeouts w); simpl in Ho; try discriminate Ho.
  destruct H as [H | H]; now contradiction H.
Qed.

Lemma page_invariant_step (e : event) (w : World) :
  page_invariant w -> page_invariant (step e w).
Proof.
  intros Hw. pose proof Hw as [Hr Ho Hl Hf].
  rewrite outstanding_length in Ho.
  destruct e as [fe | | | k r | k | k]; unfold step.
  - (* Edit *)
    destruct (form w) as [st | ] eqn:Ef; [ | exact Hw ].
    pose proof (rendered_no_report w st Hw Ef) as En.
    split; simpl.
    + rewrite En. now eexists.
    + rewrite outstanding_length. exact Ho.
    + exact Hl.
    + intros st' H. injection H as <-.
      apply form_invariant_step. now apply Hf.
  - (* ClickRunAudit *)
    destruct (form w) as [st | ] eqn:Ef; [ | exact Hw ].
    destruct (run_audit_disabled (loading (home w)) st) eqn:Ed; [ exact Hw | ].
    unfold run_audit_disabled in Ed. apply orb_false_iff in Ed.
    destruct Ed as [El _].
    pose proof (rendered_no_report w st Hw Ef) as En.
    rewrite El in Ho.
    assert (Hp : posts w = [])
      by (destruct (posts w); [ reflexivity | discriminate Ho ]).
    assert (Ht : timeouts w = [])
      by (destruct (timeouts w);
          [ reflexivity | rewrite Hp in Ho; discriminate Ho ]).
    unfold handleAudit, setLoading, setHome, render_form. simpl.
    rewrite En, Ef. split; simpl.
    + now eexists.
    + rewrite outstanding_length. simpl. rewrite Hp, Ht. reflexivity.
    + reflexivity.
    + exact Hf.
  - (* ClickBack *)
    destruct (report (home w)) as [r | ] eqn:Er; [ | exact Hw ].
    assert (El : loading (home w) = false).
    { destruct (loading (home w)); [ | reflexivity ].
      specialize (Hl eq_refl). discriminate Hl. }
    unfold setReport, setHome, render_form. simpl. rewrite Hr.
    split; simpl.
    + now eexists.
    + rewrite outstanding_length. simpl. rewrite El in *. exact Ho.
    + rewrite El. discriminate.
    + intros st' H. injection H as <-. apply form_invariant_initial.
  - (* PostResolved *)
    unfold handleAudit_resolved.
    destruct (nth_error (posts w) k) as [data | ] eqn:Ek; [ | exact Hw ].
    split; simpl.
    + exact Hr.
    + rewrite outstanding_length. simpl. rewrite length_app. simpl.
      pose proof (remove_nth_length k (posts w) data Ek). lia.
    + exact Hl.
    + exact Hf.
  - (* PostRejected *)
    unfold handleAudit_rejected.
    destruct (nth_error (posts w) k) as [data | ] eqn:Ek; [ | exact Hw ].
    assert (El : loading (home w) = true).
    { apply pending_loading; [ exact Hw | ]. left. intros E.
      rewrite E in Ek. destruct k; discriminate Ek. }
    pose proof (Hl El) as En. rewrite En in Hr. destruct Hr as [st Ef].
    unfold setLoading, setHome, render_form. simpl. rewrite En, Ef.
    split; simpl.
    + now eexists.
    + rewrite El in Ho. rewrite outstanding_length. simpl.
      pose proof (remove_nth_length k (posts w) data Ek). lia.
    + discriminate.
    + intros st' H. injection H as <-. now apply Hf.
  - (* TimeoutFired *)
    unfold timeout_callback.
    destruct (nth_error (timeouts w) k) as [t | ] eqn:Ek; [ | exact Hw ].
    assert (El : loading (home w) = true).
    { apply pending_loading; [ exact Hw | ]. right. intros E.
      rewrite E in Ek. destruct k; discriminate Ek. }
    pose proof (Hl El) as En. rewrite En in Hr. destruct Hr as [st Ef].
    unfold setLoading, setReport, setHome, render_form. simpl.
    rewrite Ef. destruct (timeout_response t) as [r | ]; split; simpl.
    + reflexivity.
    + rewrite El in Ho. rewrite outstanding_length. simpl.
      pose proof (remove_nth_length k (timeouts w) t Ek). lia.
    + discriminate.
    + discriminate.
    + now eexists.
    + rewrite El in Ho. rewrite outstanding_length. simpl.
      pose proof (remove_nth_length k (timeouts w) t Ek). lia.
    + discriminate.
    + intros st' H. injection H as <-. now apply Hf.
Qed.

Lemma reachable_invariant (w : World) : reachable w -> page_invariant w.
Proof.
  induction 1 as [ | w e _ IH].
  - apply page_invariant_initial.
  - now apply page_invariant_step.
Qed.

Lemma reachable_run (es : list event) (w : World) :
  reachable w -> reachable (run es w).
Proof.
  revert w. induction es as [ | e es IH]; intros w Hw; [ exact Hw | ].
  unfold run in *. simpl. apply IH. now constructor.
Qed.

(* ================================================================== *)
(** * The audit life cycle *)
(* ================================================================== *)

(** While [loading] is set the button is disabled, whatever the form holds. *)
Lemma click_while_loading (w : World) :
  loading (home w) = true -> step ClickRunAudit w = w.
Proof.
  intros Hl. unfold step. destruct (form w) as [st | ]; [ | reflexivity ].
  unfold run_audit_disabled. rewrite Hl. reflexivity.
Qed.

(** With [loading] unset nothing is pending. *)
Lemma idle_nothing_pending (w : World) :
  page_invariant w -> loading (home w) = false ->
  posts w = [] /\ timeouts w = [].
Proof.
  intros [_ Ho _ _] Hl. rewrite outstanding_length, Hl in Ho.
  destruct (posts w), (timeouts w); simpl in Ho; try discriminate Ho.
  split; reflexivity.
Qed.

(** With [loading] set exactly one request is outstanding: its call is
    pending, or its callback is. *)
Lemma loading_one_pending (w : World) :
  page_invariant w -> loading (home w) = true ->
  (exists d, posts w = [d] /\ timeouts w = [])
  \/ (exists t, posts w = [] /\ timeouts w = [t]).
Proof.
  intros [_ Ho _ _] Hl. rewrite outstanding_length, Hl in Ho.
  destruct (posts w) as [ | d [ | ] ], (timeouts w) as [ | t [ | ] ];
    simpl in Ho; try discriminate Ho; try lia.
  - right. now exists t.
  - left. now exists d.
Qed.

(** An enabled click sends the draft and nothing else. *)
Lemma click_when_enabled (w : World) (st : FormState) :
  page_invariant w -> form w = Some st -> can_submit w = true ->
  step ClickRunAudit w
  = {| home := {| report := None; loading := true |};
       form := Some st;
       posts := [formData st];
       timeouts := [];
       alerts := alerts w;
       console := console w |}.
Proof.
  intros Hw Hf Hc. unfold can_submit in Hc. rewrite Hf in Hc.
  apply negb_true_iff in Hc. pose proof Hc as Hd.
  unfold run_audit_disabled in Hc. apply orb_false_iff in Hc.
  destruct Hc as [Hl _].
  destruct (idle_nothing_pending w Hw Hl) as [Hp Ht].
  pose proof (rendered_no_report w st Hw Hf) as Hn.
  unfold step. rewrite Hf, Hd.
  unfold handleAudit, setLoading, setHome, render_form. simpl.
  now rewrite Hn, Hf, Hp, Ht.
Qed.

(** A rejected call, when it is the one outstanding. *)
Lemma rejected_call (w : World) (k : nat) (d : AuditRequest) :
  page_invariant w -> nth_error (posts w) k = Some d ->
  exists st,
    form w = Some st
    /\ loading (home w) = true
    /\ step (PostRejected k) w
       = {| home := {| report := None; loading := false |};
            form := Some st;
            posts := [];
            timeouts := [];
            alerts := alerts w ++ [unreachable_message];
            console := console w ++ ["Audit failed"] |}.
Proof.
  intros Hw Hk.
  assert (Hl : loading (home w) = true).
  { apply pending_loading; [ exact Hw | ]. left. intros E.
    rewrite E in Hk. destruct k; discriminate Hk. }
  pose proof (inv_loading w Hw Hl) as Hn.
  pose proof (inv_rendered w Hw) as Hr. rewrite Hn in Hr.
  destruct Hr as [st Hf]. exists st. split; [ exact Hf | ].
  split; [ exact Hl | ].
  destruct (loading_one_pending w Hw Hl) as [[d' [Hp Ht]] | [t [Hp Ht]]].
  - unfold step, handleAudit_rejected. rewrite Hk.
    unfold setLoading, setHome, render_form. simpl.
    rewrite Hn, Hf, Ht. rewrite Hp in *.
    destruct k as [ | k]; [ reflexivity | ].
    destruct k; discriminate Hk.
  - rewrite Hp in Hk. destruct k; discriminate Hk.
Qed.

(** A callback that runs, when it is the one outstanding: the report is the
    body of the response, and the form leaves the page when that body is
    truthy. *)
Lemma fired_timeout (w : World) (k : nat) (t : timeout) :
  page_invariant w -> nth_error (timeouts w) k = Some t ->
  step (TimeoutFired k) w
  = {| home := {| report := timeout_response t; loading := false |};
       form := match timeout_response t with
               | Some _ => None
               | None => form w
               end;
       posts := [];
       timeouts := [];
       alerts := alerts w;
       console := console w |}.
Proof.
  intros Hw Hk.
  assert (Hl : loading (home w) = true).
  { apply pending_loading; [ exact Hw | ]. right. intros E.
    rewrite E in Hk. destruct k; discriminate Hk. }
  pose proof (inv_loading w Hw Hl) as Hn.
  pose proof (inv_rendered w Hw) as Hr. rewrite Hn in Hr.
  destruct Hr as [st Hf].
  destruct (loading_one_pending w Hw Hl) as [[d' [Hp Ht]] | [t' [Hp Ht]]].
  - rewrite Ht in Hk. destruct k; discriminate Hk.
  - unfold step, timeout_callback. rewrite Hk.
    unfold setLoading, setReport, setHome, render_form. simpl.
    rewrite Hp, Hf. rewrite Ht in *.
    destruct k as [ | k]; [ | destruct k; discriminate Hk ].
    destruct (timeout_response t); reflexivity.
Qed.

(** C5.  In every reachable state of the page, a click on RUN AUDIT while a
    submission is in progress ([loading] set) changes nothing, however often
    it is repeated: the state, the pending call and the data it carries are
    the same.  Hence at most one request is outstanding at any time. *)
Theorem submit_while_submitting_is_noop (w : World) :
  reachable w ->
  (loading (home w) = true ->
   step ClickRunAudit w = w
   /\ forall n : nat, run (repeat ClickRunAudit n) w = w)
  /\ List.length (posts w) + List.length (timeouts w) <= 1.
Proof.
  intros Hw. split.
  - intros Hl. split; [ now apply click_while_loading | ].
    induction n as [ | n IH]; [ reflexivity | ].
    unfold run in *. cbn [repeat fold_left].
    now rewrite (click_while_loading w Hl).
  - pose proof (inv_outstanding w (reachable_invariant w Hw)) as Ho.
    rewrite outstanding_length in Ho.
    destruct (loading (home w)); lia.
Qed.

Lemma submit_while_submitting_is_noop_witness :
  (step ClickRunAudit (step ClickRunAudit initial_world)
   = step ClickRunAudit initial_world
   /\ forall n : nat,
        run (repeat ClickRunAudit n) (step ClickRunAudit initial_world)
        = step ClickRunAudit initial_world)
  /\ List.length (posts (step ClickRunAudit initial_world))
     + List.length (timeouts (step ClickRunAudit initial_world)) <= 1.
Proof.
  assert (Hr : reachable (step ClickRunAudit initial_world))
    by (constructor; constructor).
  destruct (submit_while_submitting_is_noop _ Hr) as [H1 H2].
  split; [ apply H1; reflexivity | exact H2 ].
Defined.

(** On the page, the error that a rejection has set is kept by every event
    except an accepted edit of the risk and the display of a verdict, which
    takes the form, and its state, off the page ([fired_timeout]). *)
Lemma advisory_kept_on_the_page (w : World) (st : FormState) (e : event) :
  reachable w ->
  form w = Some st ->
  error st = Some high_risk_message ->
  (forall fe, e = Edit fe -> accepted_risk_edit fe = false) ->
  (forall k, e <> TimeoutFired k) ->
  exists st', form (step e w) = Some st' /\ error st' = Some high_risk_message.
Proof.
  intros Hw Hf He Ha Ht. pose proof (reachable_invariant w Hw) as Iw.
  destruct e as [fe | | | k r | k | k].
  - unfold step. rewrite Hf. eexists. split; [ reflexivity | ].
    apply error_kept_by_step; [ now apply Ha | exact He ].
  - unfold step, run_audit_disabled. rewrite Hf, He.
    rewrite orb_true_r. now exists st.
  - unfold step. rewrite (rendered_no_report w st Iw Hf). now exists st.
  - unfold step, handleAudit_resolved.
    destruct (nth_error (posts w) k); now exists st.
  - destruct (nth_error (posts w) k) as [d | ] eqn:Hk.
    + destruct (rejected_call w k d Iw Hk) as [st0 [Hf0 [_ Hs]]].
      rewrite Hs. exists st. split; [ | exact He ].
      simpl. congruence.
    + unfold step, handleAudit_rejected. rewrite Hk. now exists st.
  - now contradiction (Ht k).
Qed.

(** C9.  When the call of a submission fails (the promise of [axios.post] is
    rejected: no response, or a response whose status is not a success), the
    page leaves the submitting state ([loading] set) for the failed one:
    [loading] is unset, no report is stored, the user has been alerted that
    the risk engine could not be reached, and nothing is pending, so nothing
    is retried; afterwards only a click on RUN AUDIT sends a request.  The
    draft is kept.  From there a click submits the draft again, setting
    [loading], unless the advisory of the guardrail is active, in which case
    the click does nothing. *)
Theorem failed_call_then_resubmission
    (w : World) (k : nat) (d : AuditRequest) :
  reachable w ->
  nth_error (posts w) k = Some d ->
  exists st : FormState,
    loading (home w) = true
    /\ form w = Some st
    /\ step (PostRejected k) w
       = {| home := {| report := None; loading := false |};
            form := Some st;
            posts := [];
            timeouts := [];
            alerts := alerts w ++ [unreachable_message];
            console := console w ++ ["Audit failed"] |}
    /\ (forall e : event,
          e <> ClickRunAudit -> posts (step e (step (PostRejected k) w)) = [])
    /\ (truthy (error st) = false ->
        step ClickRunAudit (step (PostRejected k) w)
        = {| home := {| report := None; loading := true |};
             form := Some st;
             posts := [formData st];
             timeouts := [];
             alerts := alerts w ++ [unreachable_message];
             console := console w ++ ["Audit failed"] |})
    /\ (truthy (error st) = true ->
        step ClickRunAudit (step (PostRejected k) w)
        = step (PostRejected k) w).
Proof.
  intros Hw Hk. pose proof (reachable_invariant w Hw) as Iw.
  destruct (rejected_call w k d Iw Hk) as [st [Hf [Hl Hs]]].
  exists st. split; [ exact Hl | ]. split; [ exact Hf | ].
  split; [ exact Hs | ]. rewrite Hs. split; [ | split ].
  - intros e He. destruct e as [fe | | | j r | j | j]; simpl;
      try reflexivity; try (destruct j; reflexivity).
    now contradiction He.
  - intros He. unfold step, run_audit_disabled. simpl. rewrite He.
    reflexivity.
  - intros He. unfold step, run_audit_disabled. simpl. rewrite He.
    reflexivity.
Qed.

Lemma failed_call_then_resubmission_witness :
  exists st : FormState,
    loading (home (step ClickRunAudit initial_world)) = true
    /\ form (step ClickRunAudit initial_world) = Some st
    /\ step (PostRejected 0) (step ClickRunAudit initial_world)
       = {| home := {| report := None; loading := false |};
            form := Some st;
            posts := [];
            timeouts := [];
            alerts := [unreachable_message];
            console := ["Audit failed"] |}.
Proof.
  destruct (failed_call_then_resubmission
              (step ClickRunAudit initial_world) 0 initial_formData)
    as [st [H1 [H2 [H3 _]]]].
  - constructor. constructor.
  - reflexivity.
  - exists st. split; [ exact H1 | ]. split; [ exact H2 | exact H3 ].
Defined.

(** Scenario E of the specification. *)
Example scenario_E :
  run [ClickRunAudit; PostRejected 0] initial_world
  = {| home := {| report := None; loading := false |};
       form := Some initial_form;
       posts := [];
       timeouts := [];
       alerts := [unreachable_message];
       console := ["Audit failed"] |}
  /\ loading (home (run [ClickRunAudit; PostRejected 0; ClickRunAudit]
                      initial_world)) = true.
Proof. split; reflexivity. Qed.



(** A whole audit: the report shown is the response to the submitted draft,
    and the reset returns to a fresh form with nothing pending. *)
Example audit_round_trip :
  let r := scenario_report "RED" ["Trend filter misaligned"] in
  run [ClickRunAudit; PostResolved 0 (Some r); TimeoutFired 0] initial_world
  = {| home := {| report := Some r; loading := false |};
       form := None; posts := []; timeouts := []; alerts := []; console := [] |}
  /\ run [ClickRunAudit; PostResolved 0 (Some r); TimeoutFired 0; ClickBack]
       initial_world
     = initial_world.
Proof. split; reflexivity. Qed.

(** A response with a falsy body settles the submission without showing a
    report: the form stays on the page with its draft. *)
Example audit_with_a_falsy_body :
  run [Edit (TypeRisk 0.5%float); ClickRunAudit; PostResolved 0 None;
       TimeoutFired 0] initial_world
  = {| home := {| report := None; loading := false |};
       form := Some {| formData := with_risk 0.5%float initial_formData;
                       error := None |};
       posts := []; timeouts := []; alerts := []; console := [] |}.
Proof. reflexivity. Qed.

(* ================================================================== *)
(** * The cap on a submittable draft *)
(* ================================================================== *)

(** What the guardrail does maintain: in every reachable state the risk of the
    draft is not above the cap, that is, it is at most 2.0 or it is not a
    number. *)
Lemma risk_never_above_cap (w : World) (st : FormState) :
  reachable w -> form w = Some st ->
  js_gt (risk_percentage (formData st)) 2.0%float = false
  /\ (js_le (risk_percentage (formData st)) 2.0%float = true
      \/ is_nan (risk_percentage (formData st)) = true).
Proof.
  intros Hw Hf.
  pose proof (inv_risk st (inv_form w (reachable_invariant w Hw) st Hf)) as Hr.
  split; [ exact Hr | ].
  destruct (NumberFacts.cap_cases (risk_percentage (formData st)))
    as [H | [H | H]]; auto.
  rewrite Hr in H. discriminate H.
Qed.

(** The draft that is sent is the draft of the form. *)
Lemma submitted_risk_not_above_cap (w : World) (d : AuditRequest) :
  reachable w -> In d (outstanding w) ->
  js_gt (risk_percentage d) 2.0%float = false.
Proof.
  induction 1 as [ | w e Hw IH].
  - intros [].
  - pose proof (reachable_invariant w Hw) as Iw.
    destruct e as [fe | | | k r | k | k].
    + unfold step. destruct (form w); exact IH.
    + unfold step. destruct (form w) as [st | ] eqn:Hf; [ | exact IH ].
      destruct (run_audit_disabled (loading (home w)) st) eqn:Hd;
        [ exact IH | ].
      assert (Hc : can_submit w = true)
        by (unfold can_submit; now rewrite Hf, Hd).
      pose proof (click_when_enabled w st Iw Hf Hc) as Hs.
      unfold step in Hs. rewrite Hf, Hd in Hs. rewrite Hs.
      unfold outstanding. simpl. intros [<- | []].
      apply (inv_risk st (inv_form w Iw st Hf)).
    + unfold step. destruct (report (home w)); exact IH.
    + unfold step, handleAudit_resolved.
      destruct (nth_error (posts w) k) as [d' | ] eqn:Hk; [ | exact IH ].
      unfold outstanding in *. simpl. rewrite map_app. simpl.
      intros Hin. apply IH. apply in_app_or in Hin.
      assert (Hsub : forall x, In x (remove_nth k (posts w)) -> In x (posts w)).
      { clear. revert k. induction (posts w) as [ | y l IHl]; intros k x Hx.
        - destruct k; exact Hx.
        - destruct k as [ | k]; simpl in *; [ now right | ].
          destruct Hx as [Hx | Hx]; [ now left | right; eauto ]. }
      destruct Hin as [Hin | Hin].
      * apply in_or_app. left. now apply Hsub.
      * apply in_app_or in Hin. apply in_or_app.
        destruct Hin as [Hin | [<- | []]]; [ now right | left ].
        now apply nth_error_In with k.
    + intros Hin. destruct (nth_error (posts w) k) as [d' | ] eqn:Hk.
      * destruct (rejected_call w k d' Iw Hk) as [st [_ [_ Hs]]].
        rewrite Hs in Hin. destruct Hin.
      * unfold step, handleAudit_rejected in Hin. rewrite Hk in Hin.
        now apply IH.
    + intros Hin. destruct (nth_error (timeouts w) k) as [t | ] eqn:Hk.
      * rewrite (fired_timeout w k t Iw Hk) in Hin. destruct Hin.
      * unfold step, timeout_callback in Hin. rewrite Hk in Hin.
        now apply IH.
Qed.

(** Where the form of the next state comes from, for an event that is not an
    edit: it is the form as it was, or no form, or a new form. *)
Lemma render_form_cases (h : HomeState) (f : option FormState) :
  render_form h f = f \/ render_form h f = None
  \/ render_form h f = Some initial_form.
Proof.
  unfold render_form. destruct (report h), f; auto.
Qed.

Lemma form_after_page_event (w : World) (e : event) :
  (forall fe, e <> Edit fe) ->
  form (step e w) = form w \/ form (step e w) = None
  \/ form (step e w) = Some initial_form.
Proof.
  intros He. destruct e as [fe | | | k r | k | k]; unfold step.
  - now contradiction (He fe).
  - destruct (form w) as [st | ] eqn:Hf; [ | auto ].
    destruct (run_audit_disabled (loading (home w)) st); [ auto | ].
    unfold handleAudit, setLoading, setHome. cbn [form]. rewrite <- Hf.
    apply render_form_cases.
  - destruct (report (home w)); [ | auto ].
    unfold setReport, setHome. cbn [form]. apply render_form_cases.
  - unfold handleAudit_resolved. destruct (nth_error (posts w) k); auto.
  - unfold handleAudit_rejected. destruct (nth_error (posts w) k); [ | auto ].
    unfold setLoading, setHome. cbn [form]. apply render_form_cases.
  - unfold timeout_callback. destruct (nth_error (timeouts w) k); [ | auto ].
    unfold setLoading, setReport, setHome. cbn [form home report loading].
    unfold render_form. cbn [report].
    destruct (timeout_response t), (form w); auto.
Qed.

(** An edit that a number input can deliver leaves the risk within the cap. *)
Lemma form_step_within_cap (fe : form_event) (st : FormState) :
  from_controls (Edit fe) = true ->
  js_le (risk_percentage (formData st)) 2.0%float = true ->
  js_le (risk_percentage (formData (form_step fe st))) 2.0%float = true.
Proof.
  intros Hc Hr. destruct (edits_other_field fe) eqn:Ho.
  - destruct (form_step_other_field st fe Ho) as [_ H]. now rewrite H.
  - destruct fe as [i | i | x | x]; try discriminate Ho.
    cbn [from_controls] in Hc. unfold from_number_input in Hc.
    apply negb_true_iff in Hc. rewrite form_step_TypeRisk.
    destruct (js_gt x 2.0%float) eqn:Hx.
    + now rewrite handleChange_risk_rejected.
    + rewrite handleChange_risk_accepted by exact Hx. cbn.
      apply NumberFacts.not_gt_le; auto using NumberFacts.two_not_nan.
Qed.

Lemma controls_within_cap (w : World) (st : FormState) :
  reachable_from_controls w -> form w = Some st ->
  js_le (risk_percentage (formData st)) 2.0%float = true.
Proof.
  intros Hw. revert st. induction Hw as [ | w e Hw IH Hc]; intros st Hf.
  - injection Hf as <-. reflexivity.
  - assert (He : (exists fe, e = Edit fe) \/ forall fe, e <> Edit fe).
    { destruct e; try (right; discriminate). left. eauto. }
    destruct He as [[fe ->] | He].
    + unfold step in Hf. destruct (form w) as [st0 | ] eqn:Hf0.
      * cbn [form] in Hf. injection Hf as <-.
        apply form_step_within_cap; [ exact Hc | now apply IH ].
      * rewrite Hf0 in Hf. discriminate Hf.
    + destruct (form_after_page_event w e He) as [H | [H | H]];
        rewrite H in Hf;
        [ now apply IH | discriminate Hf | injection Hf as <-; reflexivity ].
Qed.

Lemma controls_reachable (w : World) :
  reachable_from_controls w -> reachable w.
Proof. induction 1; now constructor. Qed.

(** C2.  In every state the page reaches through its controls, the draft of
    the rendered form has [risk_percentage <= 2.0]; in particular whenever
    the RUN AUDIT button is enabled, and then the click sends that draft.
    The bound is kept at the moment of each edit: an edit of the risk above
    the cap is rejected and leaves the draft as it was, an accepted one
    stores a value within the cap, and every other event leaves a form whose
    risk is within the cap. *)
Theorem submittable_draft_within_cap (w : World) :
  reachable_from_controls w ->
  (forall st : FormState,
     form w = Some st ->
     js_le (risk_percentage (formData st)) 2.0%float = true)
  /\ (can_submit w = true ->
      exists st : FormState,
        form w = Some st
        /\ js_le (risk_percentage (formData st)) 2.0%float = true
        /\ posts (step ClickRunAudit w) = [formData st])
  /\ (forall (st : FormState) (x : number),
        form w = Some st ->
        from_number_input x = true ->
        exists st' : FormState,
          form (step (Edit (TypeRisk x)) w) = Some st'
          /\ js_le (risk_percentage (formData st')) 2.0%float = true
          /\ (js_gt x 2.0%float = true -> formData st' = formData st)
          /\ (js_gt x 2.0%float = false ->
              formData st' = with_risk x (formData st)))
  /\ (forall (e : event) (st' : FormState),
        from_controls e = true ->
        form (step e w) = Some st' ->
        js_le (risk_percentage (formData st')) 2.0%float = true).
Proof.
  intros Hw. pose proof (reachable_invariant w (controls_reachable w Hw)) as Iw.
  split; [ | split; [ | split ] ].
  - intros st Hf. now apply (controls_within_cap w).
  - intros Hc. unfold can_submit in Hc.
    destruct (form w) as [st | ] eqn:Hf; [ | discriminate Hc ].
    exists st. split; [ reflexivity | ].
    split; [ now apply (controls_within_cap w) | ].
    assert (Hc' : can_submit w = true) by (unfold can_submit; now rewrite Hf).
    now rewrite (click_when_enabled w st Iw Hf Hc').
  - intros st x Hf Hx. unfold step. rewrite Hf. eexists.
    split; [ reflexivity | ]. split; [ | split ].
    + apply form_step_within_cap; [ exact Hx | ].
      now apply (controls_within_cap w).
    + intros Hg. rewrite form_step_TypeRisk.
      now rewrite handleChange_risk_rejected.
    + intros Hg. rewrite form_step_TypeRisk.
      now rewrite handleChange_risk_accepted.
  - intros e st' He Hf.
    apply (controls_within_cap (step e w)); [ | exact Hf ].
    now constructor.
Qed.

Lemma submittable_draft_within_cap_witness :
  js_le (risk_percentage (with_risk 2.0%float initial_formData)) 2.0%float
  = true.
Proof.
  assert (H1 : reachable_from_controls
                 (step (Edit (TypeRisk 2.5%float)) initial_world))
    by (apply controls_step; [ apply controls_initial | reflexivity ]).
  assert (H2 : reachable_from_controls
                 (step (Edit (TypeRisk 2.0%float))
                    (step (Edit (TypeRisk 2.5%float)) initial_world)))
    by (apply controls_step; [ exact H1 | reflexivity ]).
  apply (proj1 (submittable_draft_within_cap _ H2)
           {| formData := with_risk 2.0%float initial_formData;
              error := None |}).
  reflexivity.
Defined.

(* ================================================================== *)
(** * An edit that is not a number *)
(* ================================================================== *)




(* ================================================================== *)
(** * The verdict presentation *)
(* ================================================================== *)

Section Classification.

Variable tl : traffic_light.t.

Let c : string := traffic_light.color tl.

(** The four keys of the two object literals. *)
Lemma recognized_colors :
  (c = "GREEN" ->
   status_style tl = own "bg-green-500/10 border-green-500 text-green-400"
   /\ StatusIcon tl = Component CheckCircle)
  /\ (c = "YELLOW" ->
      status_style tl = own "bg-yellow-500/10 border-yellow-500 text-yellow-400"
      /\ StatusIcon tl = Component AlertTriangle)
  /\ (c = "RED" ->
      status_style tl = own "bg-red-500/10 border-red-500 text-red-400"
      /\ StatusIcon tl = Component XCircle)
  /\ (c = "GREY" ->
      status_style tl = own "bg-gray-500/10 border-gray-500 text-gray-400"
      /\ StatusIcon tl = Component Activity).
Proof.
  unfold status_style, StatusIcon. fold c.
  repeat split; match goal with H : c = _ |- _ => rewrite H end; reflexivity.
Qed.

(** Any other colour that is not the name of a property of
    [Object.prototype]: the icon falls back to [Activity], the style lookup
    is [undefined] and no class is added to the pill. *)
Lemma unrecognized_color :
  c <> "GREEN" -> c <> "YELLOW" -> c <> "RED" -> c <> "GREY" ->
  mem_string c Object_prototype = false ->
  status_style tl = undefined
  /\ StatusIcon tl = Component Activity
  /\ clsx "px-4 py-2 rounded-full border flex items-center gap-2"
       (status_style tl)
     = "px-4 py-2 rounded-full border flex items-center gap-2".
Proof.
  intros Hg Hy Hr Hk Hm.
  assert (E1 : get statusColors c = undefined).
  { unfold get, statusColors, own_property.
    apply not_eq_sym in Hg, Hy, Hr, Hk. apply String.eqb_neq in Hg, Hy, Hr, Hk.
    now rewrite Hg, Hy, Hr, Hk, Hm. }
  assert (E2 : get statusIcons c = undefined).
  { unfold get, statusIcons, own_property.
    apply not_eq_sym in Hg, Hy, Hr, Hk. apply String.eqb_neq in Hg, Hy, Hr, Hk.
    now rewrite Hg, Hy, Hr, Hk, Hm. }
  unfold status_style, StatusIcon. fold c. rewrite E1, E2.
  repeat split.
Qed.

End Classification.

(** C3, at the inputs on which it fails.  For the colour "PURPLE" of
    scenario D, and for the empty colour, the icon falls back to [Activity]
    but the style lookup is [undefined]: the pill is rendered with its base
    classes only, not with the grey classes that "GREY" selects.  For the
    colour "constructor" both lookups return the property inherited from
    [Object.prototype], so [StatusIcon] is not bound to an icon component. *)
Theorem unrecognized_color_gets_no_style :
  let purple := traffic_light.mk "PURPLE" "UNKNOWN" in
  let blank := traffic_light.mk "" "UNKNOWN" in
  let grey := traffic_light.mk "GREY" "UNKNOWN" in
  let ctor := traffic_light.mk "constructor" "UNKNOWN" in
  status_style purple = undefined
  /\ status_style blank = undefined
  /\ StatusIcon purple = Component Activity
  /\ StatusIcon blank = Component Activity
  /\ status_style grey = own "bg-gray-500/10 border-gray-500 text-gray-400"
  /\ StatusIcon grey = Component Activity
  /\ status_pill purple
     = velement "div" "px-4 py-2 rounded-full border flex items-center gap-2"
         None
         [ vcomponent (Component Activity) "w-5 h-5";
           velement "span" "font-bold tracking-wider" None [ vtext "UNKNOWN" ] ]
  /\ status_pill grey
     = velement "div"
         "px-4 py-2 rounded-full border flex items-center gap-2 bg-gray-500/10 border-gray-500 text-gray-400"
         None
         [ vcomponent (Component Activity) "w-5 h-5";
           velement "span" "font-bold tracking-wider" None [ vtext "UNKNOWN" ] ]
  /\ StatusIcon ctor = NotAComponent "constructor".
Proof. repeat split. Qed.

(** ** The blockers section *)



Lemma blockers_section_nonempty (t : string) (b : string) (bs : list string) :
  blockers_section (ai_analysis.mk t (Some (b :: bs)))
  = velement "div" "mt-4 pt-4 border-t border-gray-700" None
      [ velement "h4" "text-xs text-red-400 font-bold uppercase mb-2" None
          [ vtext "Alignment Blockers" ];
        velement "ul" "list-disc list-inside space-y-1" None
          (js_map blocker_item (b :: bs)) ].
Proof. reflexivity. Qed.



(** Scenarios C and D of the specification. *)
Example scenario_C :
  let r := scenario_report "RED" ["Trend filter misaligned"] in
  status_style (ui_traffic_light (ui_components r))
  = own "bg-red-500/10 border-red-500 text-red-400"
  /\ StatusIcon (ui_traffic_light (ui_components r)) = Component XCircle
  /\ section_items (blockers_section (ui_ai_analysis (ui_components r)))
     = Some [Some "Trend filter misaligned"].
Proof. repeat split. Qed.

Example scenario_D :
  let r := scenario_report "PURPLE" [] in
  status_style (ui_traffic_light (ui_components r)) = undefined
  /\ StatusIcon (ui_traffic_light (ui_components r)) = Component Activity
  /\ blockers_section (ui_ai_analysis (ui_components r)) = nothing.
Proof. repeat split. Qed.

(* ================================================================== *)
(** * Further properties of the form *)
(* ================================================================== *)

Lemma form_run_cons (e : form_event) (es : list form_event) (st : FormState) :
  form_run (e :: es) st = form_run es (form_step e st).
Proof. reflexivity. Qed.

(** X1.  After any sequence of edits, the error of the form depends on the
    most recent edit of the risk only: it is the high-risk message when that
    edit was above the cap, it is absent when that edit passed, and it is what
    it was when the risk was not edited. *)
Theorem error_tracks_last_risk_edit (es : list form_event) (st : FormState) :
  error (form_run es st)
  = match last_risk_edit es with
    | Some x =>
        if js_gt x 2.0%float then Some high_risk_message else None
    | None => error st
    end.
Proof.
  revert st. induction es as [ | e es IH]; intros st; [ reflexivity | ].
  rewrite form_run_cons, IH. cbn [last_risk_edit].
  destruct (last_risk_edit es) as [x | ]; [ reflexivity | ].
  destruct (edits_other_field e) eqn:He.
  - destruct (form_step_other_field st e He) as [H _]. rewrite H.
    destruct e; try discriminate He; reflexivity.
  - destruct e as [i | i | y | y]; try discriminate He.
    rewrite form_step_TypeRisk.
    destruct (js_gt y 2.0%float) eqn:Hy.
    + now rewrite handleChange_risk_rejected.
    + now rewrite handleChange_risk_accepted.
Qed.

(** X2.  Edits of two different fields commute: the form reaches the same
    state whichever of the two comes first, also when one of them is a
    rejected edit of the risk or a pick that has no effect. *)
Theorem edits_of_different_fields_commute
    (e1 e2 : form_event) (st : FormState) :
  field_of e1 <> field_of e2 ->
  form_step e1 (form_step e2 st) = form_step e2 (form_step e1 st).
Proof.
  intros Hne.
  destruct e1 as [i1 | i1 | x1 | x1], e2 as [i2 | i2 | x2 | x2];
    try (now contradiction Hne); clear Hne;
    cbn [form_step]; unfold select_onChange, Number;
    repeat match goal with
      | |- context [nth_error ?l ?i] => destruct (nth_error l i) as [? | ]
      end;
    repeat match goal with
      | |- context [option_disabled ?o] => destruct (option_disabled o)
      end;
    try reflexivity;
    cbn [handleChange]; unfold Number;
    repeat match goal with
      | |- context [js_gt ?x ?y] => destruct (js_gt x y)
      end;
    reflexivity.
Qed.

Lemma edits_of_different_fields_commute_witness :
  form_step (TypeRisk 2.5%float) (form_step (PickSymbol 1) initial_form)
  = form_step (PickSymbol 1) (form_step (TypeRisk 2.5%float) initial_form).
Proof.
  apply (edits_of_different_fields_commute
           (TypeRisk 2.5%float) (PickSymbol 1) initial_form).
  simpl. discriminate.
Defined.

(** X3.  Two edits of the same field in a row.  On a field without guardrail
    the later value replaces the earlier one.  On the risk, a later accepted
    value replaces whatever the earlier edit did; a later rejected value
    after a rejected one changes nothing more; and a later rejected value
    after an accepted one keeps the accepted value in the draft while the
    advisory is shown. *)
Theorem later_edit_of_same_field (st : FormState) :
  (forall (k : field) (v1 v2 : value_of k),
     k <> K_risk_percentage ->
     handleChange k v2 (handleChange k v1 st) = handleChange k v2 st)
  /\ (forall v1 v2 : number,
        js_gt v2 2.0%float = false ->
        handleChange K_risk_percentage v2
          (handleChange K_risk_percentage v1 st)
        = handleChange K_risk_percentage v2 st)
  /\ (forall v1 v2 : number,
        js_gt v1 2.0%float = true ->
        js_gt v2 2.0%float = true ->
        handleChange K_risk_percentage v2
          (handleChange K_risk_percentage v1 st)
        = handleChange K_risk_percentage v1 st)
  /\ (forall v1 v2 : number,
        js_gt v1 2.0%float = false ->
        js_gt v2 2.0%float = true ->
        handleChange K_risk_percentage v2
          (handleChange K_risk_percentage v1 st)
        = {| formData := with_risk v1 (formData st);
             error := Some high_risk_message |}).
Proof.
  split; [ | split; [ | split ] ].
  - intros k v1 v2 Hk. destruct k; try reflexivity. now contradiction Hk.
  - intros v1 v2 H2.
    rewrite (handleChange_risk_accepted (handleChange K_risk_percentage v1 st)
               v2 H2).
    rewrite (handleChange_risk_accepted st v2 H2).
    destruct (js_gt v1 2.0%float) eqn:H1.
    + now rewrite (handleChange_risk_rejected st v1 H1).
    + now rewrite (handleChange_risk_accepted st v1 H1).
  - intros v1 v2 H1 H2.
    rewrite (handleChange_risk_rejected (handleChange K_risk_percentage v1 st)
               v2 H2).
    now rewrite (handleChange_risk_rejected st v1 H1).
  - intros v1 v2 H1 H2.
    rewrite (handleChange_risk_rejected (handleChange K_risk_percentage v1 st)
               v2 H2).
    now rewrite (handleChange_risk_accepted st v1 H1).
Qed.

Lemma later_edit_of_same_field_witness :
  handleChange K_symbol "ETH/USDT" (handleChange K_symbol "BTC/USDT" initial_form)
  = handleChange K_symbol "ETH/USDT" initial_form
  /\ handleChange K_risk_percentage 1.5%float
       (handleChange K_risk_percentage 3%float initial_form)
     = handleChange K_risk_percentage 1.5%float initial_form
  /\ handleChange K_risk_percentage 4%float
       (handleChange K_risk_percentage 3%float initial_form)
     = handleChange K_risk_percentage 3%float initial_form
  /\ handleChange K_risk_percentage 4%float
       (handleChange K_risk_percentage 0.5%float initial_form)
     = {| formData := with_risk 0.5%float initial_formData;
          error := Some high_risk_message |}.
Proof.
  destruct (later_edit_of_same_field initial_form) as [H1 [H2 [H3 H4]]].
  split; [ | split; [ | split ] ].
  - apply (H1 K_symbol). discriminate.
  - apply H2. reflexivity.
  - apply H3; reflexivity.
  - apply H4; reflexivity.
Defined.

(** Above the cap is upward closed. *)
Lemma above_cap_upward (v v' : number) :
  js_gt v 2.0%float = true -> js_le v v' = true -> js_gt v' 2.0%float = true.
Proof.
  unfold js_gt, js_le.
  rewrite (ltb_spec 2 v), (ltb_spec 2 v'), (leb_spec v v').
  assert (E2 : Prim2SF 2%float = S754_finite false 4503599627370496 (-51))
    by (vm_compute; reflexivity).
  rewrite E2. clear E2. unfold SFltb, SFleb.
  generalize (4503599627370496%positive). intros c.
  generalize (-51)%Z. intros ec.
  destruct (Prim2SF v) as [s | s | | s m e],
           (Prim2SF v') as [s' | s' | | s' m' e'];
    cbn [SFcompare].
  all: try discriminate.
  all: try (destruct s; discriminate).
  all: try (destruct s'; discriminate).
  all: try (destruct s, s'; discriminate).
  - destruct s, s'; intros; reflexivity || discriminate.
  - destruct s, s'; intros; try reflexivity; try discriminate.
  - destruct s; [ discriminate | ].
    destruct s'; [ discriminate | ].
    change (PosDef.Pos.compare_cont Eq c m) with (Pos.compare c m).
    change (PosDef.Pos.compare_cont Eq c m') with (Pos.compare c m').
    change (PosDef.Pos.compare_cont Eq m m') with (Pos.compare m m').
    destruct (Z.compare_spec ec e) as [He | He | He];
      destruct (Z.compare_spec e e') as [He' | He' | He'];
      destruct (Z.compare_spec ec e') as [He2 | He2 | He2];
      try lia; try discriminate; try reflexivity;
      destruct (Pos.compare_spec c m) as [Hm | Hm | Hm];
      try discriminate;
      destruct (Pos.compare_spec m m') as [Hm' | Hm' | Hm'];
      try discriminate;
      destruct (Pos.compare_spec c m') as [Hm2 | Hm2 | Hm2];
      try reflexivity; intros _ _; lia.
Qed.

(** X4.  The guardrail is monotone.  When a value is rejected, every value
    that is at least as large is rejected too; when a value is accepted, so
    is every value that is at most as large. *)
Theorem guardrail_is_monotone (st : FormState) (v v' : number) :
  js_le v v' = true ->
  (js_gt v 2.0%float = true ->
   handleChange K_risk_percentage v' st
   = {| formData := formData st; error := Some high_risk_message |})
  /\ (js_gt v' 2.0%float = false ->
      handleChange K_risk_percentage v st
      = {| formData := with_risk v (formData st); error := None |}).
Proof.
  intros Hle. split.
  - intros Hv. apply handleChange_risk_rejected.
    now apply above_cap_upward with v.
  - intros Hv'. apply handleChange_risk_accepted.
    destruct (js_gt v 2.0%float) eqn:Hv; [ | reflexivity ].
    rewrite (above_cap_upward v v' Hv Hle) in Hv'. discriminate Hv'.
Qed.

Lemma guardrail_is_monotone_witness :
  handleChange K_risk_percentage 7%float initial_form
  = {| formData := initial_formData; error := Some high_risk_message |}.
Proof.
  apply (proj1 (guardrail_is_monotone initial_form 2.5%float 7%float
                  eq_refl)).
  reflexivity.
Defined.

(* ================================================================== *)
(** * Further properties of the page *)
(* ================================================================== *)

(** Whatever the mounted form satisfies when it is sent, every outstanding
    request satisfies. *)
Lemma outstanding_from_form (P : AuditRequest -> Prop) :
  (forall st, form_invariant st -> P (formData st)) ->
  forall (w : World) (d : AuditRequest),
    reachable w -> In d (outstanding w) -> P d.
Proof.
  intros HP w d Hw. revert d. induction Hw as [ | w e Hw IH]; intros d.
  - intros [].
  - pose proof (reachable_invariant w Hw) as Iw.
    destruct e as [fe | | | k r | k | k].
    + unfold step. destruct (form w); apply IH.
    + unfold step. destruct (form w) as [st | ] eqn:Hf; [ | apply IH ].
      destruct (run_audit_disabled (loading (home w)) st) eqn:Hd;
        [ apply IH | ].
      assert (Hc : can_submit w = true)
        by (unfold can_submit; now rewrite Hf, Hd).
      pose proof (click_when_enabled w st Iw Hf Hc) as Hs.
      unfold step in Hs. rewrite Hf, Hd in Hs. rewrite Hs.
      unfold outstanding. simpl. intros [<- | []].
      apply HP. apply (inv_form w Iw st Hf).
    + unfold step. destruct (report (home w)); apply IH.
    + destruct (nth_error (posts w) k) as [d' | ] eqn:Hk.
      * assert (Hl : loading (home w) = true).
        { apply pending_loading; [ exact Iw | ]. left. intros E.
          rewrite E in Hk. destruct k; discriminate Hk. }
        unfold step, handleAudit_resolved. rewrite Hk.
        destruct (loading_one_pending w Iw Hl)
          as [[d0 [Hp Ht]] | [t [Hp Ht]]].
        -- unfold outstanding in *. simpl. rewrite Hp, Ht in *.
           destruct k as [ | k]; [ | destruct k; discriminate Hk ].
           simpl in Hk. injection Hk as <-. simpl. exact (IH d).
        -- rewrite Hp in Hk. destruct k; discriminate Hk.
      * unfold step, handleAudit_resolved. rewrite Hk. apply IH.
    + intros Hin. destruct (nth_error (posts w) k) as [d' | ] eqn:Hk.
      * destruct (rejected_call w k d' Iw Hk) as [st [_ [_ Hs]]].
        rewrite Hs in Hin. destruct Hin.
      * unfold step, handleAudit_rejected in Hin. rewrite Hk in Hin.
        now apply IH.
    + intros Hin. destruct (nth_error (timeouts w) k) as [t | ] eqn:Hk.
      * rewrite (fired_timeout w k t Iw Hk) in Hin. destruct Hin.
      * unfold step, timeout_callback in Hin. rewrite Hk in Hin.
        now apply IH.
Qed.

(** X5.  Every request that has been sent, in every reachable state of the
    page, carries a symbol that is one of the two options, a strategy that is
    one of the two enabled options (so never BREAKOUT), and a risk that is
    not above 2.0. *)
Theorem sent_requests_are_well_formed (w : World) (d : AuditRequest) :
  reachable w -> In d (outstanding w) -> request_invariant d.
Proof.
  apply (outstanding_from_form request_invariant).
  intros st [Hr Hs Hy _]. split; assumption.
Qed.

Lemma sent_requests_are_well_formed_witness :
  request_invariant
    (with_risk 0.5%float
       {| symbol := "ETH/USDT"; strategy_type := "MEAN_REVERSION";
          account_balance := 10000%float; risk_percentage := 1.0%float |}).
Proof.
  apply (sent_requests_are_well_formed
           (run [Edit (PickSymbol 1); Edit (PickStrategy 1);
                 Edit (PickStrategy 2); Edit (TypeRisk 9%float);
                 Edit (TypeRisk 0.5%float); ClickRunAudit] initial_world)).
  - apply reachable_run. constructor.
  - left. reflexivity.
Defined.

(** X6.  The modes of the page exclude one another in every reachable state:
    the form is rendered exactly when no report is held; [loading] is set
    exactly when a request is outstanding; and while a report is held
    nothing is loading and nothing is outstanding. *)
Theorem page_modes (w : World) :
  reachable w ->
  (form w = None <-> report (home w) <> None)
  /\ (loading (home w) = true <-> outstanding w <> [])
  /\ (report (home w) <> None ->
      loading (home w) = false /\ outstanding w = []).
Proof.
  intros Hw. pose proof (reachable_invariant w Hw) as Iw.
  pose proof Iw as [Hr Ho Hl _].
  assert (H2 : loading (home w) = true <-> outstanding w <> []).
  { destruct (loading (home w)); destruct (outstanding w);
      simpl in Ho; try discriminate Ho; split; intros H;
      try reflexivity; try discriminate H; try congruence. }
  split; [ | split; [ exact H2 | ] ].
  - destruct (report (home w)) as [r | ].
    + split; [ discriminate | intros _; exact Hr ].
    + destruct Hr as [st Hf]. rewrite Hf.
      split; [ discriminate | intros H; now contradiction H ].
  - intros Hn.
    assert (El : loading (home w) = false).
    { destruct (loading (home w)); [ | reflexivity ].
      now contradiction Hn; apply Hl. }
    split; [ exact El | ].
    destruct (outstanding w) eqn:E; [ reflexivity | ].
    assert (Hc : loading (home w) = true) by (apply H2; discriminate).
    rewrite El in Hc. discriminate Hc.
Qed.

Lemma page_modes_witness :
  loading (home (step ClickRunAudit initial_world)) = true
  <-> outstanding (step ClickRunAudit initial_world) <> [].
Proof.
  apply (proj1 (proj2 (page_modes (step ClickRunAudit initial_world)
                         (reachable_step _ _ reachable_initial)))).
Defined.

(** X7.  A response is shown only after the delay.  When the pending call
    resolves with the body [r], the page itself does not change: it still
    shows the form in the loading state and holds no report; the only thing
    pending is the callback with [r].  When that callback runs, the report is
    [r], [loading] is unset and nothing is pending; the form is off the page
    when [r] is truthy, and stays on the page with its draft when [r] is
    falsy. *)
Theorem response_is_shown_after_the_delay
    (w : World) (k : nat) (d : AuditRequest) (r : response_data) :
  reachable w ->
  nth_error (posts w) k = Some d ->
  step (PostResolved k r) w
  = {| home := {| report := None; loading := true |};
       form := form w;
       posts := [];
       timeouts := [mkTimeout d r];
       alerts := alerts w;
       console := console w |}
  /\ form w <> None
  /\ step (TimeoutFired 0) (step (PostResolved k r) w)
     = {| home := {| report := r; loading := false |};
          form := match r with
                  | Some _ => None
                  | None => form w
                  end;
          posts := [];
          timeouts := [];
          alerts := alerts w;
          console := console w |}.
Proof.
  intros Hw Hk. pose proof (reachable_invariant w Hw) as Iw.
  assert (Hl : loading (home w) = true).
  { apply pending_loading; [ exact Iw | ]. left. intros E.
    rewrite E in Hk. destruct k; discriminate Hk. }
  pose proof (inv_loading w Iw Hl) as Hn.
  pose proof (inv_rendered w Iw) as Hr. rewrite Hn in Hr.
  destruct Hr as [st Hf].
  assert (Hs : step (PostResolved k r) w
               = {| home := {| report := None; loading := true |};
                    form := form w;
                    posts := [];
                    timeouts := [mkTimeout d r];
                    alerts := alerts w;
                    console := console w |}).
  { destruct (loading_one_pending w Iw Hl) as [[d0 [Hp Ht]] | [t [Hp Ht]]].
    - unfold step, handleAudit_resolved. rewrite Hk, Ht.
      rewrite Hp in *. destruct k as [ | k]; [ | destruct k; discriminate Hk ].
      simpl in Hk. injection Hk as <-. simpl.
      destruct (home w) as [rep ld]. simpl in *. now subst.
    - rewrite Hp in Hk. destruct k; discriminate Hk. }
  split; [ exact Hs | ]. split; [ rewrite Hf; discriminate | ].
  rewrite Hs, Hf. destruct r; reflexivity.
Qed.

Lemma response_is_shown_after_the_delay_witness :
  step (TimeoutFired 0)
    (step (PostResolved 0 (Some (scenario_report "GREEN" [])))
       (step ClickRunAudit initial_world))
  = {| home := {| report := Some (scenario_report "GREEN" []);
                  loading := false |};
       form := None; posts := []; timeouts := [];
       alerts := []; console := [] |}
  /\ step (TimeoutFired 0)
       (step (PostResolved 0 None) (step ClickRunAudit initial_world))
     = initial_world.
Proof.
  split.
  - apply (proj2 (proj2 (response_is_shown_after_the_delay
                           (step ClickRunAudit initial_world) 0
                           initial_formData
                           (Some (scenario_report "GREEN" []))
                           (reachable_step _ _ reachable_initial) eq_refl))).
  - apply (proj2 (proj2 (response_is_shown_after_the_delay
                           (step ClickRunAudit initial_world) 0
                           initial_formData None
                           (reachable_step _ _ reachable_initial) eq_refl))).
Defined.

(** X8.  The reset.  In a reachable state that holds a report, a click on
    "Back to Cockpit" drops the report and renders a new form with the
    initial values: the draft that was submitted is not kept, no advisory is
    shown, nothing is loading and nothing is pending.  In a state without a
    report the button is not rendered and the click does nothing. *)
Theorem reset_restores_the_initial_form (w : World) :
  reachable w ->
  (forall r : ReportData,
     report (home w) = Some r ->
     step ClickBack w
     = {| home := {| report := None; loading := false |};
          form := Some initial_form;
          posts := [];
          timeouts := [];
          alerts := alerts w;
          console := console w |})
  /\ (report (home w) = None -> step ClickBack w = w).
Proof.
  intros Hw. pose proof (reachable_invariant w Hw) as Iw. split.
  - intros r Hr. pose proof (inv_rendered w Iw) as Hf. rewrite Hr in Hf.
    assert (El : loading (home w) = false).
    { destruct (loading (home w)) eqn:E; [ | reflexivity ].
      rewrite (inv_loading w Iw E) in Hr. discriminate Hr. }
    destruct (idle_nothing_pending w Iw El) as [Hp Ht].
    unfold step. rewrite Hr.
    unfold setReport, setHome, render_form. simpl.
    now rewrite Hf, El, Hp, Ht.
  - intros Hn. unfold step. now rewrite Hn.
Qed.

Lemma reset_restores_the_initial_form_witness :
  step ClickBack
    (run [Edit (TypeRisk 0.5%float); ClickRunAudit;
          PostResolved 0
            (Some (scenario_report "RED" ["Trend filter misaligned"]));
          TimeoutFired 0] initial_world)
  = initial_world.
Proof.
  apply (proj1 (reset_restores_the_initial_form
                  (run [Edit (TypeRisk 0.5%float); ClickRunAudit;
                        PostResolved 0
                          (Some (scenario_report "RED"
                                   ["Trend filter misaligned"]));
                        TimeoutFired 0] initial_world)
                  (reachable_run _ _ reachable_initial))
           (scenario_report "RED" ["Trend filter misaligned"])).
  reflexivity.
Defined.

(** X9.  Only a failed call reaches the user as an alert.  Every event other
    than the rejection of a call leaves the alerts and the console as they
    were; and in every reachable state each alert is the message of the
    unreachable risk engine and each of them comes with one console error. *)
Theorem only_a_failed_call_alerts (w : World) :
  reachable w ->
  Forall (fun a => a = unreachable_message) (alerts w)
  /\ List.length (console w) = List.length (alerts w)
  /\ (forall e : event,
        (forall k, e <> PostRejected k) ->
        alerts (step e w) = alerts w /\ console (step e w) = console w).
Proof.
  intros Hw.
  assert (Hframe : forall (w0 : World) (e : event),
            (forall k, e <> PostRejected k) ->
            alerts (step e w0) = alerts w0 /\ console (step e w0) = console w0).
  { intros w0 e He. destruct e as [fe | | | k r | k | k]; unfold step.
    - destruct (form w0); auto.
    - destruct (form w0) as [st | ]; [ | auto ].
      destruct (run_audit_disabled (loading (home w0)) st); auto.
    - destruct (report (home w0)); auto.
    - unfold handleAudit_resolved. destruct (nth_error (posts w0) k); auto.
    - now contradiction (He k).
    - unfold timeout_callback. destruct (nth_error (timeouts w0) k); auto. }
  assert (Hcases : forall e : event,
            (forall k, e <> PostRejected k) \/ exists k, e = PostRejected k).
  { intros e. destruct e; try (left; discriminate). right. eauto. }
  split; [ | split; [ | apply Hframe ] ].
  - induction Hw as [ | w e Hw IH]; [ constructor | ].
    destruct (Hcases e) as [He | [k ->]];
      [ rewrite (proj1 (Hframe w e He)); exact IH | ].
    unfold step, handleAudit_rejected.
    destruct (nth_error (posts w) k); [ | exact IH ].
    simpl. apply Forall_app. split; [ exact IH | ].
    constructor; [ reflexivity | constructor ].
  - induction Hw as [ | w e Hw IH]; [ reflexivity | ].
    destruct (Hcases e) as [He | [k ->]];
      [ rewrite (proj1 (Hframe w e He)), (proj2 (Hframe w e He)); exact IH | ].
    unfold step, handleAudit_rejected.
    destruct (nth_error (posts w) k); [ | exact IH ].
    simpl. rewrite !length_app. simpl. now rewrite IH.
Qed.

Lemma only_a_failed_call_alerts_witness :
  alerts (step (TimeoutFired 0)
            (run [ClickRunAudit; PostRejected 0; ClickRunAudit;
                  PostResolved 0 (Some (scenario_report "GREEN" []))]
               initial_world))
  = [unreachable_message].
Proof.
  destruct (only_a_failed_call_alerts
              (run [ClickRunAudit; PostRejected 0; ClickRunAudit;
                    PostResolved 0 (Some (scenario_report "GREEN" []))]
                 initial_world)
              (reachable_run _ _ reachable_initial)) as [_ [_ H]].
  destruct (H (TimeoutFired 0)) as [Ha _]; [ discriminate | ].
  rewrite Ha. reflexivity.
Defined.

(** X10.  A sequence of edits on the page acts on the mounted form as the
    same sequence acts on the form alone, and touches nothing else: the
    report, [loading], the pending call and its data, the alerts.  Without a
    mounted form it does nothing. *)
Theorem edits_only_touch_the_form (es : list form_event) (w : World) :
  run (map Edit es) w = with_form (option_map (form_run es) (form w)) w.
Proof.
  revert w. induction es as [ | e es IH]; intros w.
  - unfold run, with_form. simpl. destruct (form w) eqn:Hf; simpl;
      rewrite <- Hf; symmetry; apply world_eta.
  - unfold run in *. cbn [map fold_left]. rewrite IH.
    unfold step. destruct (form w) as [st | ] eqn:Hf.
    + reflexivity.
    + rewrite Hf. reflexivity.
Qed.

(** X11.  When the RUN AUDIT button acts.  In a reachable state the button
    is enabled exactly when a form is rendered whose error is null and
    nothing is loading; then no report is held and nothing is outstanding.
    When it is not enabled, a click changes nothing. *)
Theorem when_run_audit_acts (w : World) :
  reachable w ->
  (can_submit w = true
   <-> loading (home w) = false
       /\ exists st, form w = Some st /\ error st = None)
  /\ (can_submit w = true -> report (home w) = None /\ outstanding w = [])
  /\ (can_submit w = false -> step ClickRunAudit w = w).
Proof.
  intros Hw. pose proof (reachable_invariant w Hw) as Iw.
  assert (H1 : can_submit w = true
               <-> loading (home w) = false
                   /\ exists st, form w = Some st /\ error st = None).
  { unfold can_submit, run_audit_disabled. split.
    - destruct (form w) as [st | ] eqn:Hf; [ | discriminate ].
      intros H. apply negb_true_iff, orb_false_iff in H.
      destruct H as [Hl He]. split; [ exact Hl | ].
      exists st. split; [ reflexivity | ].
      destruct (inv_error st (inv_form w Iw st Hf)) as [E | E];
        [ exact E | ].
      rewrite E in He. discriminate He.
    - intros [Hl [st [Hf He]]]. now rewrite Hf, Hl, He. }
  split; [ exact H1 | split ].
  - intros Hc. apply H1 in Hc. destruct Hc as [Hl [st [Hf _]]].
    split; [ now apply rendered_no_report with st | ].
    destruct (idle_nothing_pending w Iw Hl) as [Hp Ht].
    unfold outstanding. now rewrite Hp, Ht.
  - unfold can_submit, step. destruct (form w) as [st | ]; [ | reflexivity ].
    intros H. apply negb_false_iff in H. now rewrite H.
Qed.

Lemma when_run_audit_acts_witness :
  step ClickRunAudit (step (Edit (TypeRisk 2.5%float)) initial_world)
  = step (Edit (TypeRisk 2.5%float)) initial_world.
Proof.
  apply (proj2 (proj2 (when_run_audit_acts
                         (step (Edit (TypeRisk 2.5%float)) initial_world)
                         (reachable_step _ _ reachable_initial)))).
  reflexivity.
Defined.

(** X15.  No field but the risk has a guardrail.  An edit of the symbol, of
    the strategy or of the balance never changes the error, the risk, or
    whether the RUN AUDIT button is enabled; and the balance takes any number
    as it comes, a negative one, an infinite one or [nan] included. *)
Theorem other_fields_have_no_guardrail (w : World) (e : form_event) :
  edits_other_field e = true ->
  can_submit (step (Edit e) w) = can_submit w
  /\ (forall st : FormState,
        form w = Some st ->
        exists st' : FormState,
          form (step (Edit e) w) = Some st'
          /\ error st' = error st
          /\ risk_percentage (formData st') = risk_percentage (formData st))
  /\ (forall (st : FormState) (x : number),
        form w = Some st ->
        e = TypeBalance x ->
        form (step (Edit e) w)
        = Some {| formData :=
                    {| symbol := symbol (formData st);
                       strategy_type := strategy_type (formData st);
                       account_balance := x;
                       risk_percentage := risk_percentage (formData st) |};
                  error := error st |}).
Proof.
  intros He. split; [ | split ].
  - unfold can_submit, step. destruct (form w) as [st | ] eqn:Hf.
    + cbn [form home]. unfold run_audit_disabled.
      destruct (form_step_other_field st e He) as [H _]. now rewrite H.
    + now rewrite Hf.
  - intros st Hf. unfold step. rewrite Hf. eexists.
    split; [ reflexivity | ]. now apply form_step_other_field.
  - intros st x Hf ->. unfold step. rewrite Hf. reflexivity.
Qed.

Lemma other_fields_have_no_guardrail_witness :
  form (step (Edit (TypeBalance neg_infinity)) initial_world)
  = Some {| formData :=
              {| symbol := "BTC/USDT";
                 strategy_type := "TREND_FOLLOWING";
                 account_balance := neg_infinity;
                 risk_percentage := 1.0%float |};
            error := None |}
  /\ can_submit (step (Edit (TypeBalance nan)) initial_world)
     = can_submit initial_world.
Proof.
  split.
  - apply (proj2 (proj2 (other_fields_have_no_guardrail initial_world
                           (TypeBalance neg_infinity) eq_refl))
             initial_form neg_infinity); reflexivity.
  - apply (proj1 (other_fields_have_no_guardrail initial_world
                    (TypeBalance nan) eq_refl)).
Defined.

(* ================================================================== *)
(** * Further properties of the report *)
(* ================================================================== *)

Lemma mem_status_keys (c : string) :
  mem_string c status_keys = false ->
  c <> "GREEN" /\ c <> "YELLOW" /\ c <> "RED" /\ c <> "GREY".
Proof.
  unfold mem_string, status_keys. cbn [existsb]. intros H.
  repeat (apply orb_false_iff in H; destruct H as [?H H]).
  repeat split; now apply String.eqb_neq.
Qed.

(** X12.  The two lookups of the status pill, for every colour whatever.
    The style table and the icon table have the same four keys, so the two
    lookups always agree on their kind: for one of the four keys both yield
    the entry of that key; for any other colour naming a property of
    [Object.prototype] both yield that inherited property, and [StatusIcon]
    is not an icon; for every remaining colour the style is [undefined], no
    class is added to the pill, and the icon is [Activity]. *)
Theorem status_lookups_agree (tl : traffic_light.t) :
  (mem_string (traffic_light.color tl) status_keys = true ->
   exists (s : string) (i : icon),
     status_style tl = own s
     /\ StatusIcon tl = Component i
     /\ In (traffic_light.color tl, s) statusColors
     /\ In (traffic_light.color tl, i) statusIcons)
  /\ (mem_string (traffic_light.color tl) status_keys = false ->
      mem_string (traffic_light.color tl) Object_prototype = true ->
      status_style tl = inherited (traffic_light.color tl)
      /\ StatusIcon tl = NotAComponent (traffic_light.color tl))
  /\ (mem_string (traffic_light.color tl) status_keys = false ->
      mem_string (traffic_light.color tl) Object_prototype = false ->
      status_style tl = undefined
      /\ StatusIcon tl = Component Activity
      /\ clsx "px-4 py-2 rounded-full border flex items-center gap-2"
           (status_style tl)
         = "px-4 py-2 rounded-full border flex items-center gap-2").
Proof.
  destruct tl as [c l]. cbn [traffic_light.color].
  split; [ | split ].
  - unfold mem_string, status_keys. cbn [existsb]. intros H.
    destruct (String.eqb_spec c "GREEN") as [-> | _];
      [ do 2 eexists; repeat split; simpl; auto | ].
    destruct (String.eqb_spec c "YELLOW") as [-> | _];
      [ do 2 eexists; repeat split; simpl; auto | ].
    destruct (String.eqb_spec c "RED") as [-> | _];
      [ do 2 eexists; repeat split; simpl; auto | ].
    destruct (String.eqb_spec c "GREY") as [-> | _];
      [ do 2 eexists; repeat split; simpl; auto 6 | ].
    discriminate H.
  - intros Hk Hp. destruct (mem_status_keys c Hk) as [Hg [Hy [Hr Hgr]]].
    apply not_eq_sym in Hg, Hy, Hr, Hgr.
    apply String.eqb_neq in Hg, Hy, Hr, Hgr.
    unfold status_style, StatusIcon, get, statusColors, statusIcons,
      own_property. cbn [traffic_light.color].
    now rewrite Hg, Hy, Hr, Hgr, Hp.
  - intros Hk Hp.
    destruct (mem_status_keys c Hk) as [Hg [Hy [Hr Hgr]]].
    apply (unrecognized_color (traffic_light.mk c l)); assumption.
Qed.

Lemma status_lookups_agree_witness :
  status_style (traffic_light.mk "toString" "?") = inherited "toString"
  /\ StatusIcon (traffic_light.mk "toString" "?") = NotAComponent "toString".
Proof.
  apply (proj1 (proj2 (status_lookups_agree
                         (traffic_light.mk "toString" "?"))));
    reflexivity.
Defined.

Lemma node_key_blockers (bs : list string) (k : nat) :
  map node_key (map_from blocker_item k bs)
  = map Some (seq k (List.length bs)).
Proof.
  revert k. induction bs as [ | b bs IH]; intros k; [ reflexivity | ].
  cbn [map_from map List.length seq]. now rewrite IH.
Qed.

Lemma nth_blocker_item (bs : list string) (k i : nat) (b : string) :
  nth_error bs i = Some b ->
  nth_error (map_from blocker_item k bs) i = Some (blocker_item b (k + i)).
Proof.
  revert k i. induction bs as [ | b0 bs IH]; intros k i H.
  - destruct i; discriminate H.
  - destruct i as [ | i]; simpl in H.
    + injection H as <-. cbn [map_from nth_error]. now rewrite Nat.add_0_r.
    + cbn [map_from nth_error]. rewrite (IH (S k) i H).
      now rewrite Nat.add_succ_r.
Qed.

Lemma NoDup_map_Some {A : Type} (l : list A) :
  NoDup l -> NoDup (map Some l).
Proof.
  induction 1 as [ | x l Hx Hl IH]; simpl; constructor; [ | exact IH ].
  intros Hin. apply in_map_iff in Hin. destruct Hin as [y [Hy Hin]].
  injection Hy as ->. contradiction.
Qed.

(** X13.  The items of the blockers list are keyed by their position: the
    keys are 0, 1, ..., n-1, so no two items share a key, and the item at
    position [i] shows the blocker at position [i]. *)
Theorem blocker_items_are_keyed_by_position (bs : list string) :
  map node_key (js_map blocker_item bs)
  = map Some (seq 0 (List.length bs))
  /\ NoDup (map node_key (js_map blocker_item bs))
  /\ (forall (i : nat) (b : string),
        nth_error bs i = Some b ->
        nth_error (js_map blocker_item bs) i
        = Some (velement "li" "text-sm text-red-300" (Some i) [ vtext b ])).
Proof.
  unfold js_map. split; [ apply node_key_blockers | split ].
  - rewrite node_key_blockers. apply NoDup_map_Some, seq_NoDup.
  - intros i b H. now rewrite (nth_blocker_item bs 0 i b H).
Qed.

Lemma blocker_items_are_keyed_by_position_witness :
  nth_error (js_map blocker_item ["a"; "b"; "a"]) 2
  = Some (velement "li" "text-sm text-red-300" (Some 2) [ vtext "a" ]).
Proof.
  apply (proj2 (proj2 (blocker_items_are_keyed_by_position ["a"; "b"; "a"]))).
  reflexivity.
Defined.

Lemma texts_cons (tag cls : string) (key : option nat)
    (child : vnode) (rest : list vnode) :
  texts (velement tag cls key (child :: rest))
  = texts child ++ texts (velement tag cls key rest).
Proof. reflexivity. Qed.

Lemma texts_nil (tag cls : string) (key : option nat) :
  texts (velement tag cls key []) = [].
Proof. reflexivity. Qed.

Lemma texts_blocker_items (tag cls : string) (key : option nat)
    (bs : list string) (k : nat) :
  texts (velement tag cls key (map_from blocker_item k bs)) = bs.
Proof.
  revert k. induction bs as [ | b bs IH]; intros k; [ reflexivity | ].
  cbn [map_from]. rewrite texts_cons, IH. reflexivity.
Qed.

Lemma texts_blockers_section (a : ai_analysis.t) :
  texts (blockers_section a)
  = match ai_analysis.blockers a with
    | Some (b :: bs) => "Alignment Blockers" :: b :: bs
    | _ => []
    end.
Proof.
  destruct a as [t [[ | b bs] | ]]; try reflexivity.
  rewrite blockers_section_nonempty. unfold js_map.
  rewrite (texts_cons "div"), (texts_cons "div"), texts_nil.
  rewrite texts_blocker_items, app_nil_r. reflexivity.
Qed.

Lemma texts_status_pill (tl : traffic_light.t) :
  texts (status_pill tl) = [ traffic_light.label tl ].
Proof. reflexivity. Qed.

Lemma texts_regime_zone (rc : regime_card.t) :
  texts (regime_zone rc)
  = [ regime_card.title rc; regime_card.value rc; regime_card.subtext rc ].
Proof. reflexivity. Qed.

Lemma texts_risk_zone (rk : risk_card.t) :
  texts (risk_zone rk)
  = [ risk_card.title rk; "Recommended Stop Width"; risk_card.metric_1 rk;
      "Max Position Size"; risk_card.metric_2 rk ].
Proof. reflexivity. Qed.

Lemma texts_element (tag cls : string) (key : option nat)
    (children : list vnode) :
  texts (velement tag cls key children) = flat_map texts children.
Proof.
  induction children as [ | child rest IH]; [ reflexivity | ].
  rewrite texts_cons, IH. reflexivity.
Qed.

Lemma texts_summary_zone (a : ai_analysis.t) :
  texts (summary_zone a)
  = "Analysis Summary" :: ai_analysis.text a :: texts (blockers_section a).
Proof.
  unfold summary_zone. rewrite texts_element. cbn [flat_map].
  rewrite app_nil_r. reflexivity.
Qed.

(** X14.  What the report displays.  For a colour that does not name a
    property of [Object.prototype] (so that [StatusIcon] is an icon), the
    texts of the rendered report are, in this order: the asset and " AUDIT",
    the formatted timestamp, the label of the traffic light, the three fields
    of the regime card, the title and the two metrics of the risk card under
    their fixed captions, the caption and the text of the analysis, and then,
    only when there is at least one blocker, the caption "Alignment Blockers"
    and the blockers in their order.  Every field is shown as it was
    received and nothing else is. *)
Theorem report_shows_the_fields_verbatim
    (toLocaleString : string -> string) (data : ReportData) :
  mem_string (traffic_light.color (ui_traffic_light (ui_components data)))
    Object_prototype = false ->
  texts (DecisionReport toLocaleString data)
  = [ asset data; " AUDIT"; toLocaleString (timestamp data);
      traffic_light.label (ui_traffic_light (ui_components data));
      regime_card.title (ui_regime_card (ui_components data));
      regime_card.value (ui_regime_card (ui_components data));
      regime_card.subtext (ui_regime_card (ui_components data));
      risk_card.title (ui_risk_card (ui_components data));
      "Recommended Stop Width";
      risk_card.metric_1 (ui_risk_card (ui_components data));
      "Max Position Size";
      risk_card.metric_2 (ui_risk_card (ui_components data));
      "Analysis Summary";
      ai_analysis.text (ui_ai_analysis (ui_components data)) ]
    ++ match ai_analysis.blockers (ui_ai_analysis (ui_components data)) with
       | Some (b :: bs) => "Alignment Blockers" :: b :: bs
       | _ => []
       end.
Proof.
  intros _. unfold DecisionReport. cbv zeta.
  rewrite texts_element. cbn [flat_map].
  rewrite texts_summary_zone, texts_blockers_section.
  rewrite (texts_element "div" "grid grid-cols-1 md:grid-cols-2 gap-6").
  cbn [flat_map]. rewrite texts_regime_zone, texts_risk_zone.
  rewrite texts_element. cbn [flat_map]. rewrite texts_status_pill.
  rewrite !app_nil_r. reflexivity.
Qed.

Lemma report_shows_the_fields_verbatim_witness :
  texts (DecisionReport (fun s => s)
           (scenario_report "RED" ["Trend filter misaligned"]))
  = [ "BTC/USDT"; " AUDIT"; "2025-01-01T00:00:00Z"; "STATUS";
      "Regime"; "Trending"; "Context";
      "Risk"; "Recommended Stop Width"; "2.1%"; "Max Position Size";
      "0.05 BTC"; "Analysis Summary"; "Summary";
      "Alignment Blockers"; "Trend filter misaligned" ].
Proof.
  apply (report_shows_the_fields_verbatim (fun s => s)
           (scenario_report "RED" ["Trend filter misaligned"])).
  reflexivity.
Defined.

(* ================================================================== *)
(** * The advisory on the page *)
(* ================================================================== *)

(** One event of the page that is not an accepted edit of the risk and after
    which no report is held keeps the form and the error a rejection set. *)
Lemma advisory_kept_by_page_step (w : World) (st : FormState) (e : event) :
  reachable w ->
  form w = Some st ->
  error st = Some high_risk_message ->
  page_accepted_risk_edit e = false ->
  report (home (step e w)) = None ->
  exists st', form (step e w) = Some st' /\ error st' = Some high_risk_message.
Proof.
  intros Hw Hf He Ha Hn. pose proof (reachable_invariant w Hw) as Iw.
  assert (Hc : (exists k, e = TimeoutFired k) \/ forall k, e <> TimeoutFired k).
  { destruct e; try (right; discriminate). left. eauto. }
  destruct Hc as [[k ->] | Hk].
  - destruct (nth_error (timeouts w) k) as [t | ] eqn:Ht.
    + rewrite (fired_timeout w k t Iw Ht) in *. cbn [home report] in Hn.
      rewrite Hn. cbn [form]. now exists st.
    + unfold step, timeout_callback. rewrite Ht. now exists st.
  - apply (advisory_kept_on_the_page w st e); try assumption.
    intros fe ->. exact Ha.
Qed.

Lemma run_cons (e : event) (es : list event) (w : World) :
  run (e :: es) w = run es (step e w).
Proof. reflexivity. Qed.

Lemma run_app (es1 es2 : list event) (w : World) :
  run (es1 ++ es2) w = run es2 (run es1 w).
Proof. unfold run. apply fold_left_app. Qed.

Lemma advisory_kept_by_page_run (es : list event) (w : World) (st : FormState) :
  reachable w ->
  form w = Some st ->
  error st = Some high_risk_message ->
  forallb (fun e => negb (page_accepted_risk_edit e)) es = true ->
  report_shown es w = false ->
  exists st',
    form (run es w) = Some st' /\ error st' = Some high_risk_message.
Proof.
  revert w st. induction es as [ | e es IH]; intros w st Hw Hf He Hes Hs.
  - now exists st.
  - cbn [forallb] in Hes. apply andb_true_iff in Hes.
    destruct Hes as [Ha Hes]. apply negb_true_iff in Ha.
    cbn [report_shown] in Hs.
    destruct (report (home (step e w))) eqn:Hn; [ discriminate Hs | ].
    destruct (advisory_kept_by_page_step w st e Hw Hf He Ha Hn)
      as [st1 [Hf1 He1]].
    rewrite run_cons. apply (IH (step e w) st1); try assumption.
    now constructor.
Qed.

(** C8, as the code has it.  In a reachable state with the form rendered, a
    rejected edit of the risk leaves the draft as it was and makes the
    advisory "High risk limits (>2%) disabled in MVP for safety." active.
    The advisory stays active, with the same text, over every sequence of
    events of the page that contains no accepted edit of the risk and
    after none of which a report is held; the next accepted edit of the risk
    then clears it.  An edit of another field neither clears nor alters it.
    Once a report is held the form is off the page, and its advisory with
    it. *)
Theorem advisory_persists_while_the_form_is_shown
    (w : World) (st : FormState) (v : number) :
  reachable w ->
  form w = Some st ->
  js_gt v 2.0%float = true ->
  form (step (Edit (TypeRisk v)) w)
  = Some {| formData := formData st; error := Some high_risk_message |}
  /\ advisory {| formData := formData st; error := Some high_risk_message |}
     = Some high_risk_message
  /\ (forall es : list event,
        forallb (fun e => negb (page_accepted_risk_edit e)) es = true ->
        report_shown es (step (Edit (TypeRisk v)) w) = false ->
        exists st',
          form (run es (step (Edit (TypeRisk v)) w)) = Some st'
          /\ advisory st' = Some high_risk_message)
  /\ (forall (es : list event) (x : number),
        forallb (fun e => negb (page_accepted_risk_edit e)) es = true ->
        report_shown es (step (Edit (TypeRisk v)) w) = false ->
        js_gt x 2.0%float = false ->
        exists st',
          form (run (es ++ [Edit (TypeRisk x)]) (step (Edit (TypeRisk v)) w))
          = Some st'
          /\ advisory st' = None)
  /\ (forall (st1 : FormState) (e : form_event),
        edits_other_field e = true ->
        error (form_step e st1) = error st1
        /\ advisory (form_step e st1) = advisory st1)
  /\ (forall es : list event,
        report (home (run es (step (Edit (TypeRisk v)) w))) <> None ->
        form (run es (step (Edit (TypeRisk v)) w)) = None).
Proof.
  intros Hw Hf Hv.
  assert (Hs : form (step (Edit (TypeRisk v)) w)
               = Some {| formData := formData st;
                         error := Some high_risk_message |}).
  { unfold step. rewrite Hf. cbn [form]. rewrite form_step_TypeRisk.
    now rewrite handleChange_risk_rejected. }
  assert (Hr : reachable (step (Edit (TypeRisk v)) w)) by now constructor.
  split; [ exact Hs | ]. split; [ reflexivity | ].
  split; [ | split; [ | split ] ].
  - intros es Hes Hsh.
    destruct (advisory_kept_by_page_run es _ _ Hr Hs eq_refl Hes Hsh)
      as [st' [Hf' He']].
    exists st'. split; [ exact Hf' | now apply advisory_of_error ].
  - intros es x Hes Hsh Hx.
    destruct (advisory_kept_by_page_run es _ _ Hr Hs eq_refl Hes Hsh)
      as [st' [Hf' He']].
    rewrite run_app. unfold run at 1. cbn [fold_left]. unfold step at 1.
    rewrite Hf'. cbn [form]. eexists. split; [ reflexivity | ].
    rewrite form_step_TypeRisk, handleChange_risk_accepted by exact Hx.
    reflexivity.
  - intros st1 e He. destruct (form_step_other_field st1 e He) as [H _].
    split; [ exact H | ]. unfold advisory. now rewrite H.
  - intros es Hn.
    pose proof (reachable_invariant _ (reachable_run es _ Hr)) as Ir.
    pose proof (inv_rendered _ Ir) as H.
    destruct (report (home (run es (step (Edit (TypeRisk v)) w))));
      [ exact H | now contradiction Hn ].
Qed.

Lemma advisory_persists_while_the_form_is_shown_witness :
  exists st',
    form (run [ClickRunAudit; Edit (PickSymbol 1); Edit (TypeRisk 3%float)]
            (step (Edit (TypeRisk 2.5%float)) initial_world)) = Some st'
    /\ advisory st' = Some high_risk_message.
Proof.
  destruct (advisory_persists_while_the_form_is_shown
              initial_world initial_form 2.5%float
              reachable_initial eq_refl eq_refl) as [_ [_ [H _]]].
  apply H; reflexivity.
Defined.

(** C8, as it is stated, fails on the page.  The form stays editable while a
    submission is in progress; a risk rejected then sets the advisory, the
    verdict that arrives takes the form off the page, and the form that
    "Back to Cockpit" renders is a new one, without advisory: no edit of the
    risk was accepted in between. *)
Lemma advisory_lost_when_a_verdict_is_shown :
  ~ (forall (w : World) (st : FormState) (es : list event),
       reachable w ->
       form w = Some st ->
       advisory st = Some high_risk_message ->
       forallb (fun e => negb (page_accepted_risk_edit e)) es = true ->
       exists st',
         form (run es w) = Some st' /\ advisory st' = Some high_risk_message).
Proof.
  intros H.
  destruct (H (run [ClickRunAudit; Edit (TypeRisk 2.5%float)] initial_world)
              {| formData := initial_formData;
                 error := Some high_risk_message |}
              [PostResolved 0 (Some (scenario_report "GREEN" []));
               TimeoutFired 0; ClickBack])
    as [st' [Hf Ha]].
  - apply reachable_run. constructor.
  - reflexivity.
  - reflexivity.
  - reflexivity.
  - vm_compute in Hf. injection Hf as <-. discriminate Ha.
Qed.
